(** * mochicards: a shallow embedding of the Mochi REST client

    The development follows [mochicards/models.py], [mochicards/errors.py]
    and [mochicards/client.py]:

    - Python values that travel through JSON are the type [pyval];
    - raised exceptions are the type [exn], and a call that may raise
      returns a sum [exn + A];
    - the pydantic models [Card], [PaginatedCards] and [CardData] are records
      with a constructor that validates keyword arguments field by field;
    - the HTTP transport is a function from the history of requests and the
      current request to a response, and every client method threads a
      [world] that records the requests sent so far;
    - the generator [list_cards] is a resumable state machine advanced by
      [next], and [list_] drains it the way Python's [list(...)] does. *)

From Stdlib Require Import ZArith.
From stdpp Require Import base option list strings pretty gmap fin_maps.

Set Warnings "-register-all".
Set Default Proof Using "Type".
Open Scope string_scope.
Open Scope list_scope.

(** ** Python values *)

(** What [json.loads] can produce, and what [json.dumps] can consume.  A
    float is kept as its [repr] text: no arithmetic is ever done on it. *)
Inductive pyval :=
| PNone
| PBool (b : bool)
| PInt (z : Z)
| PFloat (repr : string)
| PStr (s : string)
| PList (l : list pyval)
| PDict (d : gmap string pyval).

(** A Python [dict] with string keys whose insertion order is kept, as
    [BaseModel.dict()] builds it and [json.dumps] writes it. *)
Abbreviation payload := (list (string * pyval)).

(** [x] where [x : Optional[T]]: [None] stays [None]. *)
Definition opt_val {A} (inj : A → pyval) (o : option A) : pyval :=
  match o with
  | Some a => inj a
  | None => PNone
  end.

(** Truth value of an [Optional[str]]: [None] and the empty string are
    false. *)
Definition truthy_str (o : option string) : bool :=
  match o with
  | Some s => negb (String.eqb s EmptyString)
  | None => false
  end.

(** Truth value of a list: only the empty list is false. *)
Definition truthy_list {A} (l : list A) : bool :=
  match l with
  | [] => false
  | _ :: _ => true
  end.

(** First entry of an ordered dict under key [k]. *)
Fixpoint payload_get (k : string) (p : payload) : option pyval :=
  match p with
  | [] => None
  | (k', v) :: rest => if String.eqb k k' then Some v else payload_get k rest
  end.

(** ** Validation errors and exceptions *)

Inductive loc_item :=
| LKey (k : string)
| LIdx (i : nat).

Inductive err_kind :=
| Missing          (* value_error.missing *)
| NoneNotAllowed   (* type_error.none.not_allowed *)
| TypeInvalid.     (* the error of the field's own type: str, bool, dict, list, datetime *)

(** One line of a pydantic [ValidationError]: where, and what. *)
Abbreviation verror := (list loc_item * err_kind)%type.

(** mochicards/errors.py, together with the exceptions of the libraries the
    client lets through. *)
Inductive exn :=
| ValueError (msg : string)
| TypeError
| AttributeError
| ValidationError (errors : list verror)
| HTTPError (status : Z)
| JSONDecodeError
| TransportError (msg : string)
| MochiError (detail : pyval)
| MochiAuthenticationError (msg : string)
| MochiNotFoundError (msg : string).

(** [class MochiAuthenticationError(MochiError)] and
    [class MochiNotFoundError(MochiError)]: what [except MochiError] catches. *)
Definition is_MochiError (e : exn) : bool :=
  match e with
  | MochiError _ | MochiAuthenticationError _ | MochiNotFoundError _ => true
  | _ => false
  end.

(** ** Field validation, after pydantic's [validate_model] *)

(** A timestamp: wall-clock microseconds since 1970-01-01T00:00:00 and the
    UTC offset in minutes of an aware value ([None] for a naive one). *)
Record datetime := {
  wall_us : Z;
  utcoffset : option Z;
}.

(** The validators of pydantic for the leaf types that the models use.  They
    belong to the library, so they are taken as given; all that is used of
    them is that a value which already has the wanted type is accepted
    unchanged. *)
Record Validators := {
  str_validator : pyval → option string;
  bool_validator : pyval → option bool;
  parse_datetime : pyval → option datetime;
  dict_validator : pyval → option (gmap string pyval);
  str_validator_str : ∀ s, str_validator (PStr s) = Some s;
  bool_validator_bool : ∀ b, bool_validator (PBool b) = Some b;
  dict_validator_dict : ∀ d, dict_validator (PDict d) = Some d;
}.

(** pydantic's own [str_validator], on the values JSON has: a string is
    kept; a number, and a boolean, which is an [int] in Python, is accepted
    and written out by [str()]; [None], a list and a dict are refused. *)
Definition v1_str_validator (v : pyval) : option string :=
  match v with
  | PStr s => Some s
  | PBool b => Some (if b then "True" else "False")
  | PInt z => Some (pretty z)
  | PFloat repr => Some repr
  | PNone | PList _ | PDict _ => None
  end.

(** Validators whose [str] is that of pydantic; the validators of the other
    leaf types stay as they are given. *)
Definition with_str_validator (V : Validators) : Validators :=
  {| str_validator := v1_str_validator;
     bool_validator := bool_validator V;
     parse_datetime := parse_datetime V;
     dict_validator := dict_validator V;
     str_validator_str := λ _, eq_refl;
     bool_validator_bool := bool_validator_bool V;
     dict_validator_dict := dict_validator_dict V |}.

Module Pydantic.

(** Either the errors found, or the validated value. *)
Abbreviation vres A := (list verror + A)%type.

(** Validation of one value against one type annotation. *)
Abbreviation tv A := (pyval → vres A).

Definition errs_of {A} (r : vres A) : list verror :=
  match r with
  | inl es => es
  | inr _ => []
  end.

(** [r] failed, and [e] is among its errors. *)
Definition fails_with {A} (e : verror) (r : vres A) : Prop :=
  ∃ es, r = inl es ∧ e ∈ es.

(** Errors of every field are collected; the model is built only when
    there is none. *)
Definition vap {A B} (f : vres (A → B)) (x : vres A) : vres B :=
  match f, x with
  | inr g, inr a => inr (g a)
  | _, _ => inl (errs_of f ++ errs_of x)
  end.

Infix "⊛" := vap (at level 50, left associativity).

(** Errors of a sub-value are reported below the location of its parent. *)
Definition under {A} (i : loc_item) (r : vres A) : vres A :=
  match r with
  | inl es => inl (prod_map (cons i) id <$> es)
  | inr a => inr a
  end.

Definition leaf {A} (f : pyval → option A) : tv A := λ v,
  match f v with
  | Some a => inr a
  | None => inl [([], TypeInvalid)]
  end.

(** [T]: an explicit [None] is refused. *)
Definition not_none {A} (t : tv A) : tv A := λ v,
  match v with
  | PNone => inl [([], NoneNotAllowed)]
  | _ => t v
  end.

(** [Optional[T]]: an explicit [None] is kept. *)
Definition optional {A} (t : tv A) : tv (option A) := λ v,
  match v with
  | PNone => inr None
  | _ => match t v with
         | inl es => inl es
         | inr a => inr (Some a)
         end
  end.

(** Elements of a sequence, each under its index. *)
Fixpoint each {A} (t : tv A) (i : nat) (l : list pyval) : vres (list A) :=
  match l with
  | [] => inr []
  | x :: rest => inr cons ⊛ under (LIdx i) (t x) ⊛ each t (S i) rest
  end.

(** [List[T]]: of the values JSON has, only an array is sequence-like. *)
Definition list_of {A} (t : tv A) : tv (list A) := λ v,
  match v with
  | PList l => each t 0 l
  | _ => inl [([], TypeInvalid)]
  end.

(** Bare [List] is [List[Any]]: the elements are kept as they are. *)
Definition bare_list : tv (list pyval) := list_of inr.

Section WithValidators.
Context (V : Validators).

Definition str_ : tv string := leaf (str_validator V).
Definition bool_ : tv bool := leaf (bool_validator V).
Definition datetime_ : tv datetime := leaf (parse_datetime V).

(** Bare [Dict] is [Dict[Any, Any]]. *)
Definition bare_dict : tv (gmap string pyval) := leaf (dict_validator V).

(** [Dict[str, T]]: the value is made a dict, then every value of it is
    validated under its key.  The keys of a dict that came from JSON are
    strings already. *)
Definition dict_of {A} (t : tv A) : tv (gmap string A) := λ v,
  match dict_validator V v with
  | None => inl [([], TypeInvalid)]
  | Some d =>
      let rs := (λ x, not_none t x) <$> d in
      let es := map_to_list rs ≫= (λ kr, errs_of (under (LKey kr.1) kr.2)) in
      match es with
      | [] => inr (omap (λ r, match r with inr a => Some a | inl _ => None end) rs)
      | _ :: _ => inl es
      end
  end.
End WithValidators.

(** A field without a default: [value_error.missing] when its alias is not
    among the keyword arguments. *)
Definition required {A} (alias : string) (t : tv A)
    (kw : gmap string pyval) : vres A :=
  match kw !! alias with
  | None => inl [([LKey alias], Missing)]
  | Some v => under (LKey alias) (t v)
  end.

(** A field with a default: the default is taken, unvalidated, when the
    alias is not among the keyword arguments. *)
Definition defaulted {A} (alias : string) (t : tv A) (dflt : A)
    (kw : gmap string pyval) : vres A :=
  match kw !! alias with
  | None => inr dflt
  | Some v => under (LKey alias) (t v)
  end.

(** Calling the model class on keyword arguments: raise [ValidationError]
    or return the instance. *)
Definition construct {A} (r : vres A) : exn + A :=
  match r with
  | inl es => inl (ValidationError es)
  | inr a => inr a
  end.

End Pydantic.

(** Keyword unpacking in a call: the unpacked value must be a mapping. *)
Definition kwargs_of (v : pyval) : exn + gmap string pyval :=
  match v with
  | PDict d => inr d
  | _ => inl TypeError
  end.

(** ** mochicards/models.py *)

Module Card.

Record t := {
  id : string;
  content : string;
  deck_id : string;
  template_id : option string;
  fields : gmap string pyval;
  attachments : list pyval;
  archived : bool;
  pos : option string;
  created_at : gmap string datetime;
  updated_at : gmap string datetime;
  tags : list string;
  name : option string;
  references : list string;
  reviews : list string;
}.

(** The wire key of every field: [Config.fields] renames six internal
    names, of which [new] is not a field of the model. *)
Definition aliases : list string :=
  [ "id"; "content"; "deck-id"; "template-id"; "fields"; "attachments";
    "archived?"; "pos"; "created-at"; "updated-at"; "tags"; "name";
    "references"; "reviews" ].

(** Keyword arguments with every key that is the alias of no field
    removed. *)
Definition known_only (kw : gmap string pyval) : gmap string pyval :=
  filter (λ kv, kv.1 ∈ aliases) kw.

Section WithValidators.
Context (V : Validators).
Import Pydantic.

(** Field by field, in declaration order.  A field with a default, and
    [name], whose annotation is [Optional] (its default is then [None]), may
    be left out; the others are required.  A key of [kw] that is the alias
    of no field is never looked at ([Config.extra] is left at [ignore]). *)
Definition validate_model (kw : gmap string pyval) : vres t :=
  inr Build_t
    ⊛ required "id" (not_none (str_ V)) kw
    ⊛ required "content" (not_none (str_ V)) kw
    ⊛ required "deck-id" (not_none (str_ V)) kw
    ⊛ defaulted "template-id" (optional (str_ V)) None kw
    ⊛ defaulted "fields" (not_none (bare_dict V)) ∅ kw
    ⊛ defaulted "attachments" (not_none bare_list) [] kw
    ⊛ defaulted "archived?" (not_none (bool_ V)) false kw
    ⊛ defaulted "pos" (optional (str_ V)) None kw
    ⊛ required "created-at" (not_none (dict_of V (datetime_ V))) kw
    ⊛ required "updated-at" (not_none (dict_of V (datetime_ V))) kw
    ⊛ defaulted "tags" (not_none (list_of (not_none (str_ V)))) [] kw
    ⊛ defaulted "name" (optional (str_ V)) None kw
    ⊛ defaulted "references" (not_none (list_of (not_none (str_ V)))) [] kw
    ⊛ defaulted "reviews" (not_none (list_of (not_none (str_ V)))) [] kw.

(** [Card] called on the unpacked value [v]. *)
Definition new (v : pyval) : exn + t :=
  match kwargs_of v with
  | inl e => inl e
  | inr kw => construct (validate_model kw)
  end.

(** A [Card] as the element type of a list field: the value is made a
    dict, then validated as the model. *)
Definition validate : tv t := λ v,
  match dict_validator V v with
  | None => inl [([], TypeInvalid)]
  | Some kw => validate_model kw
  end.
End WithValidators.

End Card.

Module PaginatedCards.

Record t := {
  bookmark : option string;
  docs : list Card.t;
}.

Section WithValidators.
Context (V : Validators).
Import Pydantic.

Definition validate_model (kw : gmap string pyval) : vres t :=
  inr Build_t
    ⊛ defaulted "bookmark" (optional (str_ V)) None kw
    ⊛ required "docs" (not_none (list_of (not_none (Card.validate V)))) kw.

(** [PaginatedCards] called on the unpacked value [v]. *)
Definition new (v : pyval) : exn + t :=
  match kwargs_of v with
  | inl e => inl e
  | inr kw => construct (validate_model kw)
  end.
End WithValidators.

End PaginatedCards.

Module CardData.

Record t := {
  content : string;
  deck_id : string;
  template_id : option string;
  fields : option (gmap string pyval);
  attachments : option (list pyval);
  archived : bool;
  pos : option string;
  review_reverse : bool;
}.

Section WithValidators.
Context (V : Validators).
Import Pydantic.

Definition validate_model (kw : gmap string pyval) : vres t :=
  inr Build_t
    ⊛ required "content" (not_none (str_ V)) kw
    ⊛ required "deck_id" (not_none (str_ V)) kw
    ⊛ defaulted "template_id" (optional (str_ V)) None kw
    ⊛ defaulted "fields" (optional (bare_dict V)) None kw
    ⊛ defaulted "attachments" (optional bare_list) None kw
    ⊛ defaulted "archived" (not_none (bool_ V)) false kw
    ⊛ defaulted "pos" (optional (str_ V)) None kw
    ⊛ defaulted "review_reverse" (not_none (bool_ V)) false kw.

(** [CardData] called on keyword arguments [kw]. *)
Definition new (kw : gmap string pyval) : exn + t :=
  construct (validate_model kw).
End WithValidators.

(** [.dict()]: every field of the model under its own name, in declaration
    order; nothing is left out, a field that holds [None] included. *)
Definition dict (c : t) : payload :=
  [ ("content", PStr (content c));
    ("deck_id", PStr (deck_id c));
    ("template_id", opt_val PStr (template_id c));
    ("fields", opt_val PDict (fields c));
    ("attachments", opt_val PList (attachments c));
    ("archived", PBool (archived c));
    ("pos", opt_val PStr (pos c));
    ("review_reverse", PBool (review_reverse c)) ].

End CardData.

Module Deck.

Record t := {
  id : string;
  name : string;
  parent_id : option string;
  sort : Z;
  archived : bool;
  trashed : option datetime;
}.

(** The model has no [Config]: every field is read under its own name. *)
Definition names : list string :=
  [ "id"; "name"; "parent_id"; "sort"; "archived"; "trashed" ].

Section WithValidators.
Context (V : Validators) (int_validator : pyval → option Z).
Import Pydantic.

(** [int_validator] is pydantic's validator for [int], taken as given like
    the other leaf validators. *)
Definition validate_model (kw : gmap string pyval) : vres t :=
  inr Build_t
    ⊛ required "id" (not_none (str_ V)) kw
    ⊛ required "name" (not_none (str_ V)) kw
    ⊛ defaulted "parent_id" (optional (str_ V)) None kw
    ⊛ required "sort" (not_none (leaf int_validator)) kw
    ⊛ defaulted "archived" (not_none (bool_ V)) false kw
    ⊛ defaulted "trashed" (optional (datetime_ V)) None kw.

(** [Deck] called on the unpacked value [v]. *)
Definition new (v : pyval) : exn + t :=
  match kwargs_of v with
  | inl e => inl e
  | inr kw => construct (validate_model kw)
  end.
End WithValidators.

End Deck.

Module Template.

Record t := {
  id : string;
  name : string;
  content : string;
  fields : gmap string pyval;
}.

Section WithValidators.
Context (V : Validators).
Import Pydantic.

Definition validate_model (kw : gmap string pyval) : vres t :=
  inr Build_t
    ⊛ required "id" (not_none (str_ V)) kw
    ⊛ required "name" (not_none (str_ V)) kw
    ⊛ required "content" (not_none (str_ V)) kw
    ⊛ required "fields" (not_none (bare_dict V)) kw.

(** [Template] called on the unpacked value [v]. *)
Definition new (v : pyval) : exn + t :=
  match kwargs_of v with
  | inl e => inl e
  | inr kw => construct (validate_model kw)
  end.
End WithValidators.

End Template.

(** ** The HTTP transport, as [requests] presents it to the client *)

Module requests.

Inductive http_method := GET | POST | DELETE.

(** What the client hands to [requests.get], [requests.post] and
    [requests.delete].  [params] and [json] are the dicts the client built,
    before the library drops the parameters that are [None] and serialises
    the body ([None] is written as [null]). *)
Record request := {
  method : http_method;
  url : string;
  params : option payload;
  json : option payload;
  headers : list (string * string);
  timeout : option Z;
}.

(** [body] is the parsed JSON of the response, [None] when the body is not
    JSON. *)
Record response := {
  status_code : Z;
  body : option pyval;
}.

(** [response.ok]: the status is neither a client nor a server error. *)
Definition ok (r : response) : bool :=
  negb ((400 <=? status_code r)%Z && (status_code r <? 600)%Z).

(** The three entry points the client uses, with the keyword arguments it
    passes; an argument left out is [None]. *)
Definition get (url : string) (params : option payload)
    (headers : list (string * string)) (timeout : option Z) : request :=
  {| method := GET; url := url; params := params; json := None;
     headers := headers; timeout := timeout |}.

Definition post (url : string) (json : option payload)
    (headers : list (string * string)) (timeout : option Z) : request :=
  {| method := POST; url := url; params := None; json := json;
     headers := headers; timeout := timeout |}.

Definition delete (url : string)
    (headers : list (string * string)) (timeout : option Z) : request :=
  {| method := DELETE; url := url; params := None; json := None;
     headers := headers; timeout := timeout |}.

End requests.

Abbreviation request := requests.request.
Abbreviation response := requests.response.

(** The process environment and the requests sent so far, oldest first. *)
Record world := {
  environ : gmap string string;
  sent : list request;
}.

(** The requests sent on the way from world [w] to world [w']. *)
Definition sent_since (w w' : world) : list request :=
  drop (length (sent w)) (sent w').

(** A remote service: its answer may depend on everything it was sent
    before.  [inl] is an exception raised by the transport itself. *)
Abbreviation service := (list request → request → exn + response).

(** Computations of the client: they may raise, and they change the world. *)
Definition M (A : Type) : Type := world → (exn + A) * world.

Definition raise {A} (e : exn) : M A := λ w, (inl e, w).

Definition lift {A} (r : exn + A) : M A := λ w, (r, w).

#[export] Instance M_ret : MRet M := λ A a w, (inr a, w).

(** An exception raised by [m] ends the computation: [k] is not run. *)
#[export] Instance M_bind : MBind M := λ A B k m w,
  match m w with
  | (inl e, w') => (inl e, w')
  | (inr a, w') => k a w'
  end.

Module MochiClient.

Definition BASE_URL : string := "https://api.mochi.cards/api".

Record t := {
  api_key : string;
  base_url : string;
  headers : list (string * string);
}.

(** The text of the [ValueError] of the constructor. *)
Definition no_api_key : string :=
  "API key must be provided either as argument or MOCHI_API_KEY environment variable".

(** [os.environ.get] *)
Definition environ_get (key : string) : M (option string) :=
  λ w, (inr (environ w !! key), w).

(** [__init__(self, api_key=None, base_url=BASE_URL)] *)
Definition __init__ (api_key : option string) (base_url : string) : M t :=
  api_key ← match api_key with
            | None => environ_get "MOCHI_API_KEY"
            | Some _ => mret api_key
            end;
  match api_key with
  | Some key =>
      if String.eqb key EmptyString
      then raise (ValueError no_api_key)
      else mret {| api_key := key;
                  base_url := base_url;
                  headers := [ ("Authorization", "Bearer " +:+ key);
                               ("Content-Type", "application/json") ] |}
  | None => raise (ValueError no_api_key)
  end.

Section WithService.
Context (V : Validators) (remote : service).

(** One call of [requests]: the request is recorded, the service
    answers. *)
Definition send (r : request) : M response :=
  λ w, (remote (sent w) r, {| environ := environ w; sent := sent w ++ [r] |}).

(** [response.raise_for_status()] *)
Definition raise_for_status (r : response) : M unit :=
  if requests.ok r then mret tt else raise (HTTPError (requests.status_code r)).

(** [response.json()] *)
Definition response_json (r : response) : M pyval :=
  match requests.body r with
  | Some v => mret v
  | None => raise JSONDecodeError
  end.

Definition create_card (self : t) (content deck_id : string)
    (template_id : option string) (fields : option (gmap string pyval))
    (attachments : option (list pyval)) (archived : bool)
    (pos : option string) (review_reverse : bool) : M Card.t :=
  let url := base_url self +:+ "/cards/" in
  model ← lift (CardData.new V (list_to_map
             [ ("content", PStr content);
               ("deck_id", PStr deck_id);
               ("template_id", opt_val PStr template_id);
               ("fields", opt_val PDict fields);
               ("attachments", opt_val PList attachments);
               ("archived", PBool archived);
               ("pos", opt_val PStr pos);
               ("review_reverse", PBool review_reverse) ]));
  let data := CardData.dict model in
  response ← send (requests.post url (Some data) (headers self) (Some 5%Z));
  raise_for_status response;;
  v ← response_json response;
  lift (Card.new V v).

Definition get_card (self : t) (card_id : string) : M Card.t :=
  let url := base_url self +:+ "/cards/" +:+ card_id in
  response ← send (requests.get url None (headers self) (Some 5%Z));
  raise_for_status response;;
  v ← response_json response;
  lift (Card.new V v).

(** The request of [_list_cards]: its URL, query parameters, headers
    and timeout. *)
Definition page_request (self : t) (deck_id : option string)
    (limit : option Z) (bookmark : option string) : request :=
  let url := base_url self +:+ "/cards/" in
  let params := [ ("deck-id", opt_val PStr deck_id);
                  ("limit", opt_val PInt limit);
                  ("bookmark", opt_val PStr bookmark) ] in
  requests.get url (Some params) (headers self) (Some 5%Z).

Definition _list_cards (self : t) (deck_id : option string)
    (limit : option Z) (bookmark : option string) : M PaginatedCards.t :=
  response ← send (page_request self deck_id limit bookmark);
  raise_for_status response;;
  v ← response_json response;
  lift (PaginatedCards.new V v).

Definition update_card (self : t) (card_id : string)
    (content deck_id : option string) (fields : option (gmap string pyval))
    (attachments : option (list pyval)) (archived : option bool)
    (pos : option string) : M Card.t :=
  let url := base_url self +:+ "/cards/" +:+ card_id in
  model ← lift (CardData.new V (list_to_map
             [ ("content", opt_val PStr content);
               ("deck_id", opt_val PStr deck_id);
               ("fields", opt_val PDict fields);
               ("attachments", opt_val PList attachments);
               ("archived", opt_val PBool archived);
               ("pos", opt_val PStr pos) ]));
  let data := CardData.dict model in
  response ← send (requests.post url (Some data) (headers self) (Some 5%Z));
  raise_for_status response;;
  v ← response_json response;
  lift (Card.new V v).

Definition delete_card (self : t) (card_id : string) : M unit :=
  let url := base_url self +:+ "/cards/" +:+ card_id in
  response ← send (requests.delete url (headers self) (Some 5%Z));
  raise_for_status response.

(** The text of [MochiError] is the service's [message] formatted into a
    sentence; the exception here carries the message value itself. *)
Definition trash_card (self : t) (card_id : string) : M pyval :=
  let url := BASE_URL +:+ "/cards/" +:+ card_id +:+ "/trash" in
  response ← send (requests.post url None (headers self) None);
  if (requests.status_code response =? 401)%Z then
    raise (MochiAuthenticationError "Invalid API key provided.")
  else if (requests.status_code response =? 404)%Z then
    raise (MochiNotFoundError ("Card with ID " +:+ card_id +:+ " not found."))
  else if negb (requests.ok response) then
    v ← response_json response;
    match v with
    | PDict d => raise (MochiError (default (PStr "Unknown error occurred.") (d !! "message")))
    | _ => raise AttributeError
    end
  else
    response_json response.

(** *** The generator [list_cards]

    Calling [list_cards] runs nothing: it returns a generator suspended
    before the first statement.  [next] resumes it up to the next
    [yield], to the end of the body, or to an exception. *)

(** Where the body is suspended.  [ForLoop rest b]: inside
    [for card in page_cards.docs], with [rest] still to be yielded and
    [b] the [bookmark] of [page_cards]. *)
Inductive frame :=
| LoopHead (bookmark : option string)
| ForLoop (rest : list Card.t) (page_bookmark : option string)
| Closed.

Record generator := {
  gi_self : t;
  gi_deck_id : option string;
  gi_limit : option Z;
  gi_frame : frame;
}.

Definition list_cards (self : t) (deck_id : option string)
    (limit : option Z) (bookmark : option string) : generator :=
  {| gi_self := self; gi_deck_id := deck_id; gi_limit := limit;
     gi_frame := LoopHead bookmark |}.

Inductive signal :=
| Yield (card : Card.t)
| StopIteration
| Raise (e : exn).

Definition goto (g : generator) (f : frame) : generator :=
  {| gi_self := gi_self g; gi_deck_id := gi_deck_id g;
     gi_limit := gi_limit g; gi_frame := f |}.

(** One turn of [while True] from its head: fetch a page, then either
    [break] or enter the [for] loop and yield its first card.  The test
    [not page_cards.docs or not page_cards.bookmark] comes before the
    [for] loop, so a page that fails it yields nothing. *)
Definition loop_turn (g : generator) (bookmark : option string)
    (w : world) : signal * generator * world :=
  match _list_cards (gi_self g) (gi_deck_id g) (gi_limit g) bookmark w with
  | (inl e, w') => (Raise e, goto g Closed, w')
  | (inr page_cards, w') =>
      match PaginatedCards.docs page_cards with
      | [] => (StopIteration, goto g Closed, w')
      | card :: rest =>
          if truthy_str (PaginatedCards.bookmark page_cards)
          then (Yield card,
                goto g (ForLoop rest (PaginatedCards.bookmark page_cards)),
                w')
          else (StopIteration, goto g Closed, w')
      end
  end.

(** [next(g)] *)
Definition next (g : generator) (w : world) : signal * generator * world :=
  match gi_frame g with
  | LoopHead bookmark => loop_turn g bookmark w
  | ForLoop (card :: rest) b => (Yield card, goto g (ForLoop rest b), w)
  | ForLoop [] b => loop_turn g b w   (* bookmark = page_cards.bookmark *)
  | Closed => (StopIteration, g, w)
  end.

(** How a consumer's iteration ended. *)
Inductive ending :=
| Exhausted
| Raised (e : exn)
| Suspended (g : generator).

(** [for card in g], for at most [fuel] calls of [next]: the cards
    received, how the iteration ended, and the world afterwards. *)
Fixpoint list_ (fuel : nat) (g : generator) (w : world)
    : list Card.t * ending * world :=
  match fuel with
  | O => ([], Suspended g, w)
  | S fuel' =>
      match next g w with
      | (Yield card, g', w') =>
          let '(cards, e, w'') := list_ fuel' g' w' in
          (card :: cards, e, w'')
      | (StopIteration, _, w') => ([], Exhausted, w')
      | (Raise e, _, w') => ([], Raised e, w')
      end
  end.

End WithService.

End MochiClient.

(** ** A concrete setting to evaluate the client in *)

Module Fixtures.

Definition only_str (v : pyval) : option string :=
  match v with PStr s => Some s | _ => None end.

Definition only_bool (v : pyval) : option bool :=
  match v with PBool b => Some b | _ => None end.

Definition only_dict (v : pyval) : option (gmap string pyval) :=
  match v with PDict d => Some d | _ => None end.

(** An integer is a number of seconds since the epoch, in UTC. *)
Definition unix_seconds (v : pyval) : option datetime :=
  match v with
  | PInt n =>
      if (Z.abs n <=? 20000000000)%Z
      then Some {| wall_us := n * 1000000; utcoffset := Some 0%Z |}
      else None
  | _ => None
  end.

(** Validators that accept a value of the wanted JSON type and nothing
    else; pydantic accepts these values, and others besides. *)
Definition plain : Validators :=
  {| str_validator := only_str;
     bool_validator := only_bool;
     parse_datetime := unix_seconds;
     dict_validator := only_dict;
     str_validator_str := λ _, eq_refl;
     bool_validator_bool := λ _, eq_refl;
     dict_validator_dict := λ _, eq_refl |}.

(** A card as the service writes it, after the fixtures of the test
    suite. *)
Definition wire_card (id pos : string) : gmap string pyval :=
  list_to_map
    [ ("tags", PList []);
      ("content", PStr "# Hello, world!");
      ("name", PStr "Hello world");
      ("deck-id", PStr "eH53Hxe8");
      ("fields", PDict ∅);
      ("pos", PStr pos);
      ("references", PList []);
      ("id", PStr id);
      ("reviews", PList []);
      ("created-at", PDict {[ "date" := PInt 1631155798 ]});
      ("updated-at", PDict {[ "date" := PInt 1631155798 ]}) ].

Definition stamp : gmap string datetime :=
  {[ "date" := {| wall_us := 1631155798000000; utcoffset := Some 0%Z |} ]}.

Definition card (id pos : string) : Card.t :=
  {| Card.id := id;
     Card.content := "# Hello, world!";
     Card.deck_id := "eH53Hxe8";
     Card.template_id := None;
     Card.fields := ∅;
     Card.attachments := [];
     Card.archived := false;
     Card.pos := Some pos;
     Card.created_at := stamp;
     Card.updated_at := stamp;
     Card.tags := [];
     Card.name := Some "Hello world";
     Card.references := [];
     Card.reviews := [] |}.

Definition page (bookmark : pyval) (docs : list (gmap string pyval)) : pyval :=
  PDict (list_to_map [ ("bookmark", bookmark); ("docs", PList (PDict <$> docs)) ]).

Definition answer (status : Z) (v : pyval) : exn + response :=
  inr {| requests.status_code := status; requests.body := Some v |}.

(** The bookmark a page request carries, if any. *)
Definition bookmark_of (r : request) : option pyval :=
  match requests.params r with
  | Some p => payload_get "bookmark" p
  | None => None
  end.

(** Three pages, chosen by the bookmark of the request: two cards and
    [bookmark1], two cards and [bookmark2], no card and no bookmark. *)
Definition three_pages : service := λ _ r,
  match bookmark_of r with
  | Some PNone =>
      answer 200 (page (PStr "bookmark1") [wire_card "card_1" "1"; wire_card "card_2" "2"])
  | Some (PStr "bookmark1") =>
      answer 200 (page (PStr "bookmark2") [wire_card "card_3" "1"; wire_card "card_4" "2"])
  | Some (PStr "bookmark2") =>
      answer 200 (page PNone [])
  | _ => answer 404 PNone
  end.

(** A single page that has a card but no bookmark. *)
Definition last_page_with_card : service := λ _ _,
  answer 200 (page PNone [wire_card "card_1" "1"]).

(** A service that answers every request with the same status and an
    empty JSON object. *)
Definition always (status : Z) : service := λ _ _, answer status (PDict ∅).

(** A service that echoes a fixed card. *)
Definition echo : service := λ _ _, answer 200 (PDict (wire_card "card_1" "1")).

Definition no_env : world := {| environ := ∅; sent := [] |}.

Definition local_url : string := "http://localhost:8080/api".

Definition client : MochiClient.t :=
  {| MochiClient.api_key := "secret";
     MochiClient.base_url := local_url;
     MochiClient.headers := [ ("Authorization", "Bearer secret");
                              ("Content-Type", "application/json") ] |}.

End Fixtures.

(** More settings: services for every outcome of a request, and sample
    objects of the other models. *)
Module Cases.

(** An integer, and nothing else, is an [int]. *)
Definition only_int (v : pyval) : option Z :=
  match v with PInt n => Some n | _ => None end.

(** A service that answers every request with the same status and body. *)
Definition replies (status : Z) (body : option pyval) : service := λ _ _,
  inr {| requests.status_code := status; requests.body := body |}.

(** A service that cannot be reached. *)
Definition unreachable : service := λ _ _,
  inl (TransportError "Connection refused").

(** A transport adapter that raises an exception of the library itself. *)
Definition adapter_raises : service := λ _ _,
  inl (MochiError (PStr "adapter closed")).

(** Two cards and a bookmark on the first page; the request for the second
    page is answered with a server error. *)
Definition second_page_fails : service := λ _ r,
  match Fixtures.bookmark_of r with
  | Some PNone =>
      Fixtures.answer 200
        (Fixtures.page (PStr "bookmark1")
           [Fixtures.wire_card "card_1" "1"; Fixtures.wire_card "card_2" "2"])
  | _ => Fixtures.answer 500 (PDict ∅)
  end.

(** A card with the five required keys and no other. *)
Definition bare_card : gmap string pyval :=
  list_to_map
    [ ("id", PStr "QQJ8ssvL");
      ("content", PStr "Hello world");
      ("deck-id", PStr "deck_123");
      ("created-at", PDict {[ "date" := PInt 1631155798 ]});
      ("updated-at", PDict {[ "date" := PInt 1631155798 ]}) ].

Definition bare_card_decoded : Card.t :=
  {| Card.id := "QQJ8ssvL";
     Card.content := "Hello world";
     Card.deck_id := "deck_123";
     Card.template_id := None;
     Card.fields := ∅;
     Card.attachments := [];
     Card.archived := false;
     Card.pos := None;
     Card.created_at := Fixtures.stamp;
     Card.updated_at := Fixtures.stamp;
     Card.tags := [];
     Card.name := None;
     Card.references := [];
     Card.reviews := [] |}.

(** The first card of the test suite with a number for an identifier. *)
Definition numbered_card : gmap string pyval :=
  <["id" := PInt 123]> (Fixtures.wire_card "card_1" "1").

Definition numbered_card_decoded : Card.t :=
  {| Card.id := "123";
     Card.content := "# Hello, world!";
     Card.deck_id := "eH53Hxe8";
     Card.template_id := None;
     Card.fields := ∅;
     Card.attachments := [];
     Card.archived := false;
     Card.pos := Some "1";
     Card.created_at := Fixtures.stamp;
     Card.updated_at := Fixtures.stamp;
     Card.tags := [];
     Card.name := Some "Hello world";
     Card.references := [];
     Card.reviews := [] |}.

(** A deck with the three required keys and no other. *)
Definition small_deck : gmap string pyval :=
  list_to_map
    [ ("id", PStr "HJmTrWBB"); ("name", PStr "Geography"); ("sort", PInt 3) ].

(** A deck as the service writes it, with its own spelling of the keys. *)
Definition wire_deck : gmap string pyval :=
  list_to_map
    [ ("id", PStr "HJmTrWBB");
      ("name", PStr "Geography");
      ("sort", PInt 3);
      ("parent-id", PStr "Dm5vFlaa");
      ("archived?", PBool true) ].

Definition wire_deck_decoded : Deck.t :=
  {| Deck.id := "HJmTrWBB";
     Deck.name := "Geography";
     Deck.parent_id := None;
     Deck.sort := 3;
     Deck.archived := false;
     Deck.trashed := None |}.

Definition sample_data : CardData.t :=
  {| CardData.content := "Hello world";
     CardData.deck_id := "deck_123";
     CardData.template_id := None;
     CardData.fields := Some {[ "name" := PStr "Hello" ]};
     CardData.attachments := None;
     CardData.archived := true;
     CardData.pos := Some "00F";
     CardData.review_reverse := false |}.

Definition with_env (key : string) : world :=
  {| environ := {[ "MOCHI_API_KEY" := key ]}; sent := [] |}.

End Cases.

(** * Properties *)

(** ** Validation: errors are never lost, unknown keys are never read *)

Section PydanticFacts.
Import Pydantic.

Lemma fails_with_vap_l {A B} e (f : vres (A → B)) (x : vres A) :
  fails_with e f → fails_with e (f ⊛ x).
Proof.
  intros (es & -> & Hin). exists (es ++ errs_of x). split; [by destruct x|].
  apply elem_of_app. by left.
Qed.

Lemma fails_with_vap_r {A B} e (f : vres (A → B)) (x : vres A) :
  fails_with e x → fails_with e (f ⊛ x).
Proof.
  intros (es & -> & Hin). exists (errs_of f ++ es). split; [by destruct f|].
  apply elem_of_app. by right.
Qed.

Lemma fails_with_under {A} (i : loc_item) l k (r : vres A) :
  fails_with (l, k) r → fails_with (i :: l, k) (under i r).
Proof.
  intros (es & -> & Hin). eexists. split; [done|].
  apply list_elem_of_fmap. by exists (l, k).
Qed.

Lemma required_missing {A} alias (t : tv A) kw :
  kw !! alias = None → fails_with ([LKey alias], Missing) (required alias t kw).
Proof.
  intros Hk. unfold required. rewrite Hk. eexists. split; [done|].
  apply list_elem_of_here.
Qed.

Lemma required_none {A} alias (t : tv A) kw :
  kw !! alias = Some PNone →
  fails_with ([LKey alias], NoneNotAllowed) (required alias (not_none t) kw).
Proof.
  intros Hk. unfold required. rewrite Hk. apply fails_with_under.
  eexists. split; [done|]. apply list_elem_of_here.
Qed.

Lemma required_str_refused V alias kw v :
  kw !! alias = Some v → str_validator V v = None →
  ∃ kind, fails_with ([LKey alias], kind) (required alias (not_none (str_ V)) kw).
Proof.
  intros Hk Hv.
  destruct v; [exists NoneNotAllowed; by apply required_none|..];
    exists TypeInvalid; unfold required; rewrite Hk; apply fails_with_under;
    exists [([], TypeInvalid)]; (split; [|apply list_elem_of_here]);
    unfold not_none, str_, leaf; by rewrite Hv.
Qed.

Lemma each_any i l : each inr i l = inr l.
Proof.
  revert i. induction l as [|x l IH]; intros i; [done|].
  cbn. by rewrite IH.
Qed.

Lemma not_none_str V s : not_none (str_ V) (PStr s) = inr s.
Proof. unfold not_none, str_, leaf. by rewrite str_validator_str. Qed.

Lemma not_none_bool V b : not_none (bool_ V) (PBool b) = inr b.
Proof. unfold not_none, bool_, leaf. by rewrite bool_validator_bool. Qed.

Lemma optional_str V o : optional (str_ V) (opt_val PStr o) = inr o.
Proof.
  destruct o as [s|]; [|done]. unfold optional, str_, leaf; cbn.
  by rewrite str_validator_str.
Qed.

Lemma optional_dict V o : optional (bare_dict V) (opt_val PDict o) = inr o.
Proof.
  destruct o as [d|]; [|done]. unfold optional, bare_dict, leaf; cbn.
  by rewrite dict_validator_dict.
Qed.

Lemma optional_list o : optional bare_list (opt_val PList o) = inr o.
Proof.
  destruct o as [l|]; [|done]. unfold optional, bare_list, list_of; cbn.
  by rewrite each_any.
Qed.

(** A lookup of a known alias does not see the keys that were filtered
    away. *)
Lemma lookup_known_only (kw : gmap string pyval) k :
  k ∈ Card.aliases →
  Card.known_only kw !! k = kw !! k.
Proof.
  intros Hk. unfold Card.known_only. destruct (kw !! k) as [v|] eqn:E.
  - apply map_lookup_filter_Some. by split.
  - apply map_lookup_filter_None. by left.
Qed.

End PydanticFacts.

Lemma Card_validate_model_known_only V kw :
  Card.validate_model V (Card.known_only kw) = Card.validate_model V kw.
Proof.
  unfold Card.validate_model, Pydantic.required, Pydantic.defaulted.
  rewrite !lookup_known_only; [done|..];
    unfold Card.aliases; repeat first [apply list_elem_of_here | apply list_elem_of_further].
Qed.

(** A response body that is not a JSON object cannot be unpacked at all. *)
Lemma Card_new_not_an_object V v :
  (∀ d, v ≠ PDict d) → Card.new V v = inl TypeError.
Proof. intros Hv. destruct v; try done. by destruct (Hv d). Qed.

(** Decoding fails as a whole, with a [ValidationError] that names the
    field, whenever one of the required wire keys [id], [content], [deck-id]
    is absent, is [null], or holds a value that the string validator at hand
    refuses. *)
Lemma Card_new_field_refused V (kw : gmap string pyval) (k : string) :
  k = "id" ∨ k = "content" ∨ k = "deck-id" →
  kw !! k = None ∨ kw !! k = Some PNone
    ∨ (∃ v, kw !! k = Some v ∧ str_validator V v = None) →
  ∃ es kind, Card.new V (PDict kw) = inl (ValidationError es)
             ∧ ([LKey k], kind) ∈ es.
Proof.
  intros Hk Hbad.
  assert (∃ kind, Pydantic.fails_with ([LKey k], kind)
            (Pydantic.required k (Pydantic.not_none (Pydantic.str_ V)) kw))
    as [kind Hf].
  { destruct Hbad as [H|[H|(v & H & Hv)]].
    - exists Missing. by apply required_missing.
    - exists NoneNotAllowed. by apply required_none.
    - by eapply required_str_refused. }
  assert (Pydantic.fails_with ([LKey k], kind) (Card.validate_model V kw))
    as (es & Hes & Hin).
  { unfold Card.validate_model.
    destruct Hk as [-> | [-> | ->]];
      repeat first [ apply fails_with_vap_r; exact Hf | apply fails_with_vap_l ]. }
  exists es, kind. split; [|done].
  unfold Card.new, kwargs_of, Pydantic.construct. by rewrite Hes.
Qed.

(** C7, as the code has it.  With the string validator of pydantic, decoding
    a wire response into a [Card] fails as a whole, with a [ValidationError]
    that names the field, whenever one of the required wire keys [id],
    [content], [deck-id] is absent, is [null], is an array or is an object;
    no [Card] is returned. *)
Theorem Card_new_required_field V (kw : gmap string pyval) (k : string) :
  k = "id" ∨ k = "content" ∨ k = "deck-id" →
  kw !! k = None ∨ kw !! k = Some PNone
    ∨ (∃ l, kw !! k = Some (PList l)) ∨ (∃ d, kw !! k = Some (PDict d)) →
  ∃ es kind,
    Card.new (with_str_validator V) (PDict kw) = inl (ValidationError es)
    ∧ ([LKey k], kind) ∈ es.
Proof.
  intros Hk Hbad. apply Card_new_field_refused; [done|].
  destruct Hbad as [H | [H | [[l H] | [d H]]]]; [by left|by right; left|..];
    right; right; eexists; (split; [exact H|reflexivity]).
Qed.

Lemma Card_new_required_field_witness :
  ∃ es kind,
    Card.new (with_str_validator Fixtures.plain)
      (PDict (<["deck-id" := PList [PStr "eH53Hxe8"]]>
                (Fixtures.wire_card "card_1" "1")))
      = inl (ValidationError es)
    ∧ ([LKey "deck-id"], kind) ∈ es.
Proof.
  apply (Card_new_required_field Fixtures.plain
           (<["deck-id" := PList [PStr "eH53Hxe8"]]>
              (Fixtures.wire_card "card_1" "1")) "deck-id").
  - right. right. reflexivity.
  - right. right. left. exists [PStr "eH53Hxe8"]. vm_compute. reflexivity.
Defined.

(** C7 fails as stated: a number where the identifier should be a string is
    not refused.  pydantic writes it out, and the response decodes to a
    [Card] whose [id] is that text. *)
Lemma Card_new_coerces_number :
  Cases.numbered_card !! "id" = Some (PInt 123)
  ∧ Card.new (with_str_validator Fixtures.plain) (PDict Cases.numbered_card)
    = inr Cases.numbered_card_decoded
  ∧ Card.id Cases.numbered_card_decoded = "123".
Proof. repeat split; vm_compute; reflexivity. Qed.

(** C10.  When the wire response stripped of its unknown keys decodes to a
    [Card], the response itself decodes, and to the same [Card]: a key that
    is the alias of no field is neither an error nor kept. *)
Theorem Card_new_ignores_unknown_keys V (kw : gmap string pyval) (c : Card.t) :
  Card.new V (PDict (Card.known_only kw)) = inr c →
  Card.new V (PDict kw) = inr c.
Proof.
  unfold Card.new, kwargs_of. by rewrite Card_validate_model_known_only.
Qed.

Lemma Card_new_ignores_unknown_keys_witness :
  Card.new Fixtures.plain
    (PDict (<["new?" := PBool false]> (Fixtures.wire_card "card_1" "1")))
  = inr (Fixtures.card "card_1" "1").
Proof.
  apply (Card_new_ignores_unknown_keys Fixtures.plain).
  vm_compute. reflexivity.
Defined.

(** ** The write payloads *)

(** Keyword arguments are looked up by name; in a literal list of them the
    first binding of a name is the one that counts. *)
Lemma lookup_kwargs (l : payload) (k : string) :
  (list_to_map l : gmap string pyval) !! k = payload_get k l.
Proof.
  induction l as [|[k' v] l IH]; [done|].
  cbn [list_to_map foldr fst snd payload_get].
  destruct (String.eqb_spec k k') as [->|Hne].
  - apply lookup_insert_eq.
  - rewrite lookup_insert_ne; [done|congruence].
Qed.

Ltac validate_kwargs :=
  unfold CardData.new, CardData.validate_model,
    Pydantic.required, Pydantic.defaulted;
  rewrite !lookup_kwargs; cbn [payload_get String.eqb Ascii.eqb Bool.eqb];
  rewrite ?not_none_str, ?not_none_bool, ?optional_str,
    ?optional_dict, ?optional_list.

(** What [create_card] makes of its arguments. *)
Lemma CardData_new_create V content deck_id template_id fields attachments
    archived pos review_reverse :
  CardData.new V (list_to_map
    [ ("content", PStr content); ("deck_id", PStr deck_id);
      ("template_id", opt_val PStr template_id);
      ("fields", opt_val PDict fields);
      ("attachments", opt_val PList attachments);
      ("archived", PBool archived); ("pos", opt_val PStr pos);
      ("review_reverse", PBool review_reverse) ])
  = inr {| CardData.content := content; CardData.deck_id := deck_id;
           CardData.template_id := template_id; CardData.fields := fields;
           CardData.attachments := attachments; CardData.archived := archived;
           CardData.pos := pos; CardData.review_reverse := review_reverse |}.
Proof. validate_kwargs. reflexivity. Qed.

(** What [update_card] makes of its arguments when [content], [deck_id] and
    [archived] are given: [template_id] and [review_reverse] are not passed on
    and take their defaults. *)
Lemma CardData_new_update V content deck_id fields attachments archived pos :
  CardData.new V (list_to_map
    [ ("content", opt_val PStr (Some content));
      ("deck_id", opt_val PStr (Some deck_id));
      ("fields", opt_val PDict fields);
      ("attachments", opt_val PList attachments);
      ("archived", opt_val PBool (Some archived)); ("pos", opt_val PStr pos) ])
  = inr {| CardData.content := content; CardData.deck_id := deck_id;
           CardData.template_id := None; CardData.fields := fields;
           CardData.attachments := attachments; CardData.archived := archived;
           CardData.pos := pos; CardData.review_reverse := false |}.
Proof. cbn [opt_val]. validate_kwargs. reflexivity. Qed.

(** A field of [CardData] that is not [Optional] refuses the [None] that
    [update_card] passes for an argument left out. *)
Lemma CardData_new_update_none V content deck_id fields attachments archived pos :
  content = None ∨ deck_id = None ∨ archived = None →
  ∃ es, CardData.new V (list_to_map
    [ ("content", opt_val PStr content);
      ("deck_id", opt_val PStr deck_id);
      ("fields", opt_val PDict fields);
      ("attachments", opt_val PList attachments);
      ("archived", opt_val PBool archived); ("pos", opt_val PStr pos) ])
  = inl (ValidationError es).
Proof.
  intros H.
  assert (∃ k, Pydantic.fails_with ([LKey k], NoneNotAllowed)
    (CardData.validate_model V (list_to_map
      [ ("content", opt_val PStr content);
        ("deck_id", opt_val PStr deck_id);
        ("fields", opt_val PDict fields);
        ("attachments", opt_val PList attachments);
        ("archived", opt_val PBool archived); ("pos", opt_val PStr pos) ])))
    as (k & es & Hes & _).
  { unfold CardData.validate_model.
    destruct H as [-> | [-> | ->]].
    - exists "content". do 7 apply fails_with_vap_l. apply fails_with_vap_r.
      apply required_none. by rewrite lookup_kwargs.
    - exists "deck_id". do 6 apply fails_with_vap_l. apply fails_with_vap_r.
      apply required_none. by rewrite lookup_kwargs.
    - exists "archived". do 2 apply fails_with_vap_l. apply fails_with_vap_r.
      unfold Pydantic.defaulted. rewrite lookup_kwargs. cbn.
      eexists. split; [done|]. apply list_elem_of_here. }
  exists es. unfold CardData.new, Pydantic.construct. by rewrite Hes.
Qed.

(** ** The client *)

Section ClientFacts.
Context (V : Validators) (remote : service).
Import MochiClient.

(** Once the answer is in, reading it sends nothing. *)
Lemma decode_sends_nothing {A} (new : pyval → exn + A) (r : response) w :
  (raise_for_status r;; v ← response_json r; lift (new v)) w
  = ((if requests.ok r
      then match requests.body r with
           | Some v => new v
           | None => inl JSONDecodeError
           end
      else inl (HTTPError (requests.status_code r))), w).
Proof.
  unfold raise_for_status, response_json.
  destruct (requests.ok r); [destruct (requests.body r)|]; reflexivity.
Qed.

(** A request and the decoding of its answer: one request is sent,
    whatever the outcome. *)
Lemma send_decode {A} (new : pyval → exn + A) (q : request) w :
  (response ← send remote q;
   raise_for_status response;; v ← response_json response; lift (new v)) w
  = (match remote (sent w) q with
     | inl e => inl e
     | inr r =>
         if requests.ok r
         then match requests.body r with
              | Some v => new v
              | None => inl JSONDecodeError
              end
         else inl (HTTPError (requests.status_code r))
     end,
     {| environ := environ w; sent := sent w ++ [q] |}).
Proof.
  unfold mbind at 1. unfold M_bind, send.
  destruct (remote (sent w) q) as [e|r]; [done|].
  apply decode_sends_nothing.
Qed.

Lemma get_card_run self card_id w :
  get_card V remote self card_id w
  = (match remote (sent w)
             (requests.get (base_url self +:+ "/cards/" +:+ card_id) None
                (headers self) (Some 5%Z)) with
     | inl e => inl e
     | inr r =>
         if requests.ok r
         then match requests.body r with
              | Some v => Card.new V v
              | None => inl JSONDecodeError
              end
         else inl (HTTPError (requests.status_code r))
     end,
     {| environ := environ w;
        sent := sent w ++ [requests.get (base_url self +:+ "/cards/" +:+ card_id)
                             None (headers self) (Some 5%Z)] |}).
Proof. unfold get_card. apply send_decode. Qed.

Lemma _list_cards_run self deck_id limit bookmark w :
  _list_cards V remote self deck_id limit bookmark w
  = (match remote (sent w) (page_request self deck_id limit bookmark) with
     | inl e => inl e
     | inr r =>
         if requests.ok r
         then match requests.body r with
              | Some v => PaginatedCards.new V v
              | None => inl JSONDecodeError
              end
         else inl (HTTPError (requests.status_code r))
     end,
     {| environ := environ w;
        sent := sent w ++ [page_request self deck_id limit bookmark] |}).
Proof. unfold _list_cards. apply send_decode. Qed.

Lemma create_card_run self content deck_id template_id fields attachments
    archived pos review_reverse w :
  let q := requests.post (base_url self +:+ "/cards/")
             (Some [ ("content", PStr content);
                     ("deck_id", PStr deck_id);
                     ("template_id", opt_val PStr template_id);
                     ("fields", opt_val PDict fields);
                     ("attachments", opt_val PList attachments);
                     ("archived", PBool archived);
                     ("pos", opt_val PStr pos);
                     ("review_reverse", PBool review_reverse) ])
             (headers self) (Some 5%Z) in
  create_card V remote self content deck_id template_id fields attachments
    archived pos review_reverse w
  = (match remote (sent w) q with
     | inl e => inl e
     | inr r =>
         if requests.ok r
         then match requests.body r with
              | Some v => Card.new V v
              | None => inl JSONDecodeError
              end
         else inl (HTTPError (requests.status_code r))
     end,
     {| environ := environ w; sent := sent w ++ [q] |}).
Proof.
  intros q. unfold create_card. unfold mbind at 1. unfold M_bind, lift.
  rewrite CardData_new_create. apply send_decode.
Qed.

Lemma update_card_run self card_id content deck_id fields attachments
    archived pos w :
  let q := requests.post (base_url self +:+ "/cards/" +:+ card_id)
             (Some [ ("content", PStr content);
                     ("deck_id", PStr deck_id);
                     ("template_id", PNone);
                     ("fields", opt_val PDict fields);
                     ("attachments", opt_val PList attachments);
                     ("archived", PBool archived);
                     ("pos", opt_val PStr pos);
                     ("review_reverse", PBool false) ])
             (headers self) (Some 5%Z) in
  update_card V remote self card_id (Some content) (Some deck_id) fields
    attachments (Some archived) pos w
  = (match remote (sent w) q with
     | inl e => inl e
     | inr r =>
         if requests.ok r
         then match requests.body r with
              | Some v => Card.new V v
              | None => inl JSONDecodeError
              end
         else inl (HTTPError (requests.status_code r))
     end,
     {| environ := environ w; sent := sent w ++ [q] |}).
Proof.
  intros q. unfold update_card. unfold mbind at 1. unfold M_bind, lift.
  rewrite CardData_new_update. apply send_decode.
Qed.

(** An update that leaves out [content], [deck_id] or [archived] is refused
    by [CardData] before anything is sent. *)
Lemma update_card_refused self card_id content deck_id fields attachments
    archived pos w :
  content = None ∨ deck_id = None ∨ archived = None →
  ∃ es, update_card V remote self card_id content deck_id fields
          attachments archived pos w = (inl (ValidationError es), w).
Proof.
  intros H.
  destruct (CardData_new_update_none V content deck_id fields attachments
              archived pos H) as [es Hes].
  exists es. unfold update_card. unfold mbind at 1. unfold M_bind, lift.
  by rewrite Hes.
Qed.

Lemma delete_card_sent self card_id w :
  sent (delete_card remote self card_id w).2
  = sent w ++ [requests.delete (base_url self +:+ "/cards/" +:+ card_id)
                 (headers self) (Some 5%Z)].
Proof.
  unfold delete_card, mbind, M_bind, send, raise_for_status.
  destruct (remote _ _) as [e|r]; [done|]. by destruct (requests.ok r).
Qed.

Lemma trash_card_sent self card_id w :
  sent (trash_card remote self card_id w).2
  = sent w ++ [requests.post (BASE_URL +:+ "/cards/" +:+ card_id +:+ "/trash")
                 None (headers self) None].
Proof.
  unfold trash_card, mbind, M_bind, send, response_json.
  destruct (remote _ _) as [e|r]; [done|].
  destruct (_ =? 401)%Z; [done|]. destruct (_ =? 404)%Z; [done|].
  destruct (negb _); destruct (requests.body r) as [[]|]; done.
Qed.

End ClientFacts.

(** C3, as the code has it.  The body that [create_card] posts always has
    the eight keys of [CardData], in declaration order; an optional argument
    that was not supplied is sent under its key with the value [None], which
    is written as [null]. *)
Theorem create_card_body V remote self content deck_id template_id fields
    attachments archived pos review_reverse w :
  sent (MochiClient.create_card V remote self content deck_id template_id
          fields attachments archived pos review_reverse w).2
  = sent w ++
    [ requests.post (MochiClient.base_url self +:+ "/cards/")
        (Some [ ("content", PStr content);
                ("deck_id", PStr deck_id);
                ("template_id", opt_val PStr template_id);
                ("fields", opt_val PDict fields);
                ("attachments", opt_val PList attachments);
                ("archived", PBool archived);
                ("pos", opt_val PStr pos);
                ("review_reverse", PBool review_reverse) ])
        (MochiClient.headers self) (Some 5%Z) ].
Proof. by rewrite create_card_run. Qed.

(** C3 fails as stated: a card created from its content and deck alone is
    posted with [template_id], [fields], [attachments] and [pos] present and
    null. *)
Lemma create_card_sends_null :
  ∃ q body,
    sent (MochiClient.create_card Fixtures.plain Fixtures.echo Fixtures.client
            "Hello world" "deck_123" None None None false None false
            Fixtures.no_env).2 = [q]
    ∧ requests.json q = Some body
    ∧ payload_get "template_id" body = Some PNone
    ∧ payload_get "fields" body = Some PNone
    ∧ payload_get "attachments" body = Some PNone
    ∧ payload_get "pos" body = Some PNone.
Proof. do 2 eexists. vm_compute. repeat split. Qed.

(** C2, as the code has it.  When [content], [deck_id] and [archived] are
    given, the body that [update_card] posts has the eight keys of
    [CardData]: the values given, [null] for each of [fields], [attachments]
    and [pos] that was left out, [null] for [template_id] and [false] for
    [review_reverse]. *)
Theorem update_card_body V remote self card_id content deck_id fields
    attachments archived pos w :
  sent (MochiClient.update_card V remote self card_id (Some content)
          (Some deck_id) fields attachments (Some archived) pos w).2
  = sent w ++
    [ requests.post (MochiClient.base_url self +:+ "/cards/" +:+ card_id)
        (Some [ ("content", PStr content);
                ("deck_id", PStr deck_id);
                ("template_id", PNone);
                ("fields", opt_val PDict fields);
                ("attachments", opt_val PList attachments);
                ("archived", PBool archived);
                ("pos", opt_val PStr pos);
                ("review_reverse", PBool false) ])
        (MochiClient.headers self) (Some 5%Z) ].
Proof. by rewrite update_card_run. Qed.

(** C2 fails as stated: an update that sets [content], [deck_id] and
    [archived] only is posted with five more keys, four of them null. *)
Lemma update_card_sends_unset_fields :
  ∃ q body,
    sent (MochiClient.update_card Fixtures.plain Fixtures.echo Fixtures.client
            "card_1" (Some "New content") (Some "deck_123") None None
            (Some false) None Fixtures.no_env).2 = [q]
    ∧ requests.json q = Some body
    ∧ body.*1 = [ "content"; "deck_id"; "template_id"; "fields";
                  "attachments"; "archived"; "pos"; "review_reverse" ]
    ∧ payload_get "fields" body = Some PNone
    ∧ payload_get "attachments" body = Some PNone
    ∧ payload_get "pos" body = Some PNone
    ∧ payload_get "template_id" body = Some PNone.
Proof. do 2 eexists. vm_compute. repeat split. Qed.

(** C4, as the code has it.  When the service answers a fetch with status
    404 or 401, [get_card] raises the [HTTPError] of [raise_for_status] for
    that status, and returns no [Card]. *)
Theorem get_card_error_status V remote self card_id w r :
  remote (sent w)
    (requests.get (MochiClient.base_url self +:+ "/cards/" +:+ card_id) None
       (MochiClient.headers self) (Some 5%Z)) = inr r →
  requests.status_code r = 404%Z ∨ requests.status_code r = 401%Z →
  (MochiClient.get_card V remote self card_id w).1
  = inl (HTTPError (requests.status_code r)).
Proof.
  intros Hr Hs. rewrite get_card_run, Hr. cbn [fst].
  unfold requests.ok. by destruct Hs as [-> | ->].
Qed.

Lemma get_card_error_status_witness :
  (MochiClient.get_card Fixtures.plain (Fixtures.always 404) Fixtures.client
     "nonexistent_card_789" Fixtures.no_env).1
  = inl (HTTPError 404).
Proof.
  apply (get_card_error_status Fixtures.plain (Fixtures.always 404)
           Fixtures.client "nonexistent_card_789" Fixtures.no_env
           {| requests.status_code := 404; requests.body := Some (PDict ∅) |}).
  - reflexivity.
  - left. reflexivity.
Defined.

(** C4 fails as stated: on a 404 and on a 401 the exception of [get_card] is
    [HTTPError], which is no [MochiError]. *)
Lemma get_card_raises_HTTPError :
  (MochiClient.get_card Fixtures.plain (Fixtures.always 404) Fixtures.client
     "nonexistent_card_789" Fixtures.no_env).1 = inl (HTTPError 404)
  ∧ (MochiClient.get_card Fixtures.plain (Fixtures.always 401) Fixtures.client
       "nonexistent_card_789" Fixtures.no_env).1 = inl (HTTPError 401)
  ∧ is_MochiError (HTTPError 404) = false
  ∧ is_MochiError (HTTPError 401) = false.
Proof. vm_compute. repeat split. Qed.

(** C8.  With no [api_key] argument and [MOCHI_API_KEY] unset, the
    constructor raises its [ValueError] and the world is unchanged: no
    request was sent. *)
Theorem init_without_credential base_url w :
  environ w !! "MOCHI_API_KEY" = None →
  ∃ msg, MochiClient.__init__ None base_url w = (inl (ValueError msg), w)
         ∧ sent (MochiClient.__init__ None base_url w).2 = sent w.
Proof.
  intros Henv. eexists.
  unfold MochiClient.__init__, MochiClient.environ_get, mbind, M_bind.
  rewrite Henv. split; reflexivity.
Qed.

Lemma init_without_credential_witness :
  ∃ msg,
    MochiClient.__init__ None MochiClient.BASE_URL Fixtures.no_env
    = (inl (ValueError msg), Fixtures.no_env)
    ∧ sent (MochiClient.__init__ None MochiClient.BASE_URL Fixtures.no_env).2
      = sent Fixtures.no_env.
Proof.
  apply (init_without_credential MochiClient.BASE_URL Fixtures.no_env).
  reflexivity.
Defined.

(** C9 at the input where it fails: a client configured for a local
    deployment sends the request of [trash_card] to the built-in address. *)
Theorem trash_card_uses_BASE_URL :
  MochiClient.base_url Fixtures.client = "http://localhost:8080/api"
  ∧ requests.url <$>
      sent (MochiClient.trash_card Fixtures.echo Fixtures.client "card_1"
              Fixtures.no_env).2
    = [ "https://api.mochi.cards/api/cards/card_1/trash" ].
Proof. split; reflexivity. Qed.

(** ** Pagination *)

Section PaginationFacts.
Context (V : Validators) (remote : service).
Import MochiClient.

Lemma truthy_str_Some s : s ≠ EmptyString → truthy_str (Some s) = true.
Proof. intros Hs. cbn. by destruct (String.eqb_spec s EmptyString). Qed.

(** A page request is the only thing [_list_cards] does to the world. *)
Lemma _list_cards_world self deck_id limit bookmark w :
  (_list_cards V remote self deck_id limit bookmark w).2
  = {| environ := environ w;
       sent := sent w ++ [page_request self deck_id limit bookmark] |}.
Proof. by rewrite _list_cards_run. Qed.

(** A turn of the loop sends exactly one page request, with the filters of
    the generator. *)
Lemma loop_turn_sent g b w :
  sent (loop_turn V remote g b w).2
  = sent w ++ [page_request (gi_self g) (gi_deck_id g) (gi_limit g) b].
Proof.
  unfold loop_turn.
  pose proof (_list_cards_world (gi_self g) (gi_deck_id g) (gi_limit g) b w) as Hw.
  destruct (_list_cards _ _ _ _ _ _ _) as [[e|p] w']; cbn in Hw; subst w'.
  - done.
  - destruct (PaginatedCards.docs p); [done|].
    by destruct (truthy_str _).
Qed.

Lemma loop_turn_filters g b w :
  let g' := (loop_turn V remote g b w).1.2 in
  gi_self g' = gi_self g ∧ gi_deck_id g' = gi_deck_id g
  ∧ gi_limit g' = gi_limit g.
Proof.
  unfold loop_turn.
  destruct (_list_cards _ _ _ _ _ _ _) as [[e|p] w']; [done|].
  destruct (PaginatedCards.docs p); [done|].
  by destruct (truthy_str _).
Qed.

(** Resuming the generator sends at most one request, and leaves the
    filters as they are. *)
Lemma next_sent g w :
  ∃ bs, sent (next V remote g w).2
        = sent w ++ (page_request (gi_self g) (gi_deck_id g) (gi_limit g) <$> bs).
Proof.
  unfold next. destruct (gi_frame g) as [b|[|c rest] b|].
  - exists [b]. apply loop_turn_sent.
  - exists [b]. apply loop_turn_sent.
  - exists []. cbn. by rewrite app_nil_r.
  - exists []. cbn. by rewrite app_nil_r.
Qed.

Lemma next_filters g w :
  let g' := (next V remote g w).1.2 in
  gi_self g' = gi_self g ∧ gi_deck_id g' = gi_deck_id g
  ∧ gi_limit g' = gi_limit g.
Proof.
  unfold next. destruct (gi_frame g) as [b|[|c rest] b|];
    [apply loop_turn_filters..|done|done].
Qed.

(** Draining the generator from any point sends page requests only, all
    with the filters the generator was created with. *)
Lemma list_sent fuel g w :
  ∃ bs, sent (list_ V remote fuel g w).2
        = sent w ++ (page_request (gi_self g) (gi_deck_id g) (gi_limit g) <$> bs).
Proof.
  revert g w. induction fuel as [|fuel IH]; intros g w.
  { exists []. cbn. by rewrite app_nil_r. }
  cbn [list_].
  destruct (next_sent g w) as [bs Hbs].
  pose proof (next_filters g w) as (Hself & Hdeck & Hlimit).
  destruct (next V remote g w) as [[[c| |e] g'] w']; cbn in *.
  - destruct (IH g' w') as [bs' Hbs'].
    destruct (list_ V remote fuel g' w') as [[cards e] w''] eqn:E; cbn in *.
    exists (bs ++ bs').
    by rewrite Hbs', Hbs, Hself, Hdeck, Hlimit, fmap_app, app_assoc.
  - by exists bs.
  - by exists bs.
Qed.

(** The consumer's loop, one call of [next] at a time. *)
Lemma list_yield fuel g w c g' w' :
  next V remote g w = (Yield c, g', w') →
  list_ V remote (S fuel) g w
  = (c :: (list_ V remote fuel g' w').1.1,
     (list_ V remote fuel g' w').1.2,
     (list_ V remote fuel g' w').2).
Proof.
  intros Hn. cbn [list_]. rewrite Hn.
  by destruct (list_ V remote fuel g' w') as [[cards e] w''].
Qed.

Lemma list_stop fuel g w g' w' :
  next V remote g w = (StopIteration, g', w') →
  list_ V remote (S fuel) g w = ([], Exhausted, w').
Proof. intros Hn. cbn [list_]. by rewrite Hn. Qed.

(** The head of the loop is reached at the start, and from the end of a
    [for] loop with the bookmark of its page. *)
Lemma next_turn g b w :
  gi_frame g = LoopHead b ∨ gi_frame g = ForLoop [] b →
  next V remote g w = loop_turn V remote g b w.
Proof. unfold next. by intros [-> | ->]. Qed.

Lemma next_page g b w page w' c rest :
  gi_frame g = LoopHead b ∨ gi_frame g = ForLoop [] b →
  _list_cards V remote (gi_self g) (gi_deck_id g) (gi_limit g) b w
    = (inr page, w') →
  PaginatedCards.docs page = c :: rest →
  truthy_str (PaginatedCards.bookmark page) = true →
  next V remote g w
  = (Yield c, goto g (ForLoop rest (PaginatedCards.bookmark page)), w').
Proof.
  intros Hg Hp Hd Hb. rewrite (next_turn g b w Hg).
  unfold loop_turn. by rewrite Hp, Hd, Hb.
Qed.

Lemma next_empty_page g b w page w' :
  gi_frame g = LoopHead b ∨ gi_frame g = ForLoop [] b →
  _list_cards V remote (gi_self g) (gi_deck_id g) (gi_limit g) b w
    = (inr page, w') →
  PaginatedCards.docs page = [] →
  next V remote g w = (StopIteration, goto g Closed, w').
Proof.
  intros Hg Hp Hd. rewrite (next_turn g b w Hg).
  unfold loop_turn. by rewrite Hp, Hd.
Qed.

Lemma next_in_page g c rest b w :
  gi_frame g = ForLoop (c :: rest) b →
  next V remote g w = (Yield c, goto g (ForLoop rest b), w).
Proof. unfold next. by intros ->. Qed.

(** A page that has cards but no bookmark ends the iteration on the spot:
    the request for it is the last one, and its cards are not yielded. *)
Lemma next_page_without_bookmark g b w page w' :
  gi_frame g = LoopHead b →
  _list_cards V remote (gi_self g) (gi_deck_id g) (gi_limit g) b w
    = (inr page, w') →
  PaginatedCards.bookmark page = None →
  next V remote g w = (StopIteration, goto g Closed, w').
Proof.
  intros Hf Hp Hb. unfold next, loop_turn. rewrite Hf, Hp, Hb.
  by destruct (PaginatedCards.docs page).
Qed.

End PaginationFacts.

(** C6.  Whatever the service answers and however far the consumer
    iterates, every request that [list_cards] sends is a [GET] of the cards
    of the client's base address whose query parameters are the [deck_id]
    and the [limit] the caller passed, as passed, and a bookmark; the
    requests differ in the bookmark alone. *)
Theorem list_cards_forwards_filters V remote self deck_id limit bookmark fuel w :
  ∃ bookmarks,
    sent (MochiClient.list_ V remote fuel
            (MochiClient.list_cards self deck_id limit bookmark) w).2
    = sent w ++
      ((λ b, {| requests.method := requests.GET;
                requests.url := MochiClient.base_url self +:+ "/cards/";
                requests.params :=
                  Some [ ("deck-id", match deck_id with
                                     | Some d => PStr d
                                     | None => PNone
                                     end);
                         ("limit", match limit with
                                   | Some n => PInt n
                                   | None => PNone
                                   end);
                         ("bookmark", match b with
                                      | Some t => PStr t
                                      | None => PNone
                                      end) ];
                requests.json := None;
                requests.headers := MochiClient.headers self;
                requests.timeout := Some 5%Z |}) <$> bookmarks).
Proof.
  destruct (list_sent V remote fuel
              (MochiClient.list_cards self deck_id limit bookmark) w)
    as [bookmarks Hsent].
  exists bookmarks. rewrite Hsent. reflexivity.
Qed.

(** The filters in a run over three pages: each of the three requests has
    the deck and the page size of the call. *)
Lemma three_pages_requests_carry_filters :
  (λ q, (payload_get "deck-id" <$> requests.params q,
         payload_get "limit" <$> requests.params q,
         payload_get "bookmark" <$> requests.params q))
    <$> sent (MochiClient.list_ Fixtures.plain Fixtures.three_pages 5
                (MochiClient.list_cards Fixtures.client (Some "eH53Hxe8")
                   (Some 2%Z) None) Fixtures.no_env).2
  = [ (Some (Some (PStr "eH53Hxe8")), Some (Some (PInt 2)), Some (Some PNone));
      (Some (Some (PStr "eH53Hxe8")), Some (Some (PInt 2)),
       Some (Some (PStr "bookmark1")));
      (Some (Some (PStr "eH53Hxe8")), Some (Some (PInt 2)),
       Some (Some (PStr "bookmark2"))) ].
Proof. vm_compute. reflexivity. Qed.

(** C5.  When the service answers the first page request with two cards and
    the token [T1], the request for [T1] with two cards and [T2], and the
    request for [T2] with no card and no token, a consumer that iterates to
    the end receives the four cards in the order served, the iteration ends
    normally, and exactly these three requests were sent. *)
Theorem list_cards_three_pages V remote self deck_id limit start
    w0 w1 w2 w3 c1 c2 c3 c4 T1 T2 (fuel : nat) :
  T1 ≠ EmptyString → T2 ≠ EmptyString →
  MochiClient._list_cards V remote self deck_id limit start w0
    = (inr {| PaginatedCards.bookmark := Some T1;
              PaginatedCards.docs := [c1; c2] |}, w1) →
  MochiClient._list_cards V remote self deck_id limit (Some T1) w1
    = (inr {| PaginatedCards.bookmark := Some T2;
              PaginatedCards.docs := [c3; c4] |}, w2) →
  MochiClient._list_cards V remote self deck_id limit (Some T2) w2
    = (inr {| PaginatedCards.bookmark := None;
              PaginatedCards.docs := [] |}, w3) →
  (5 ≤ fuel)%nat →
  let run := MochiClient.list_ V remote fuel
               (MochiClient.list_cards self deck_id limit start) w0 in
  run.1 = ([c1; c2; c3; c4], MochiClient.Exhausted)
  ∧ sent run.2
    = sent w0 ++ [ MochiClient.page_request self deck_id limit start;
                   MochiClient.page_request self deck_id limit (Some T1);
                   MochiClient.page_request self deck_id limit (Some T2) ].
Proof.
  intros HT1 HT2 H1 H2 H3 Hfuel run.
  assert (run = ([c1; c2; c3; c4], MochiClient.Exhausted, w3)) as ->.
  { subst run. do 5 (destruct fuel as [|fuel]; [lia|]).
    erewrite list_yield; [|by eapply next_page;
      [left|exact H1|reflexivity|apply truthy_str_Some]].
    erewrite list_yield; [|by apply next_in_page].
    erewrite list_yield; [|by eapply next_page;
      [right|exact H2|reflexivity|apply truthy_str_Some]].
    erewrite list_yield; [|by apply next_in_page].
    erewrite list_stop; [|by eapply next_empty_page; [right|exact H3|]].
    reflexivity. }
  split; [done|]. cbn [snd].
  pose proof (_list_cards_world V remote self deck_id limit start w0) as E1.
  pose proof (_list_cards_world V remote self deck_id limit (Some T1) w1) as E2.
  pose proof (_list_cards_world V remote self deck_id limit (Some T2) w2) as E3.
  rewrite H1 in E1. rewrite H2 in E2. rewrite H3 in E3. cbn in E1, E2, E3.
  subst w3 w2 w1. cbn. by rewrite <- !app_assoc.
Qed.

Lemma list_cards_three_pages_witness :
  let run := MochiClient.list_ Fixtures.plain Fixtures.three_pages 5
               (MochiClient.list_cards Fixtures.client None None None)
               Fixtures.no_env in
  run.1 = ([ Fixtures.card "card_1" "1"; Fixtures.card "card_2" "2";
             Fixtures.card "card_3" "1"; Fixtures.card "card_4" "2" ],
           MochiClient.Exhausted)
  ∧ sent run.2
    = sent Fixtures.no_env ++
      [ MochiClient.page_request Fixtures.client None None None;
        MochiClient.page_request Fixtures.client None None (Some "bookmark1");
        MochiClient.page_request Fixtures.client None None (Some "bookmark2") ].
Proof.
  pose (w1 := (MochiClient._list_cards Fixtures.plain Fixtures.three_pages
                 Fixtures.client None None None Fixtures.no_env).2).
  pose (w2 := (MochiClient._list_cards Fixtures.plain Fixtures.three_pages
                 Fixtures.client None None (Some "bookmark1") w1).2).
  pose (w3 := (MochiClient._list_cards Fixtures.plain Fixtures.three_pages
                 Fixtures.client None None (Some "bookmark2") w2).2).
  apply (list_cards_three_pages Fixtures.plain Fixtures.three_pages
           Fixtures.client None None None Fixtures.no_env w1 w2 w3
           (Fixtures.card "card_1" "1") (Fixtures.card "card_2" "2")
           (Fixtures.card "card_3" "1") (Fixtures.card "card_4" "2")
           "bookmark1" "bookmark2" 5).
  - discriminate.
  - discriminate.
  - vm_compute. reflexivity.
  - vm_compute. reflexivity.
  - vm_compute. reflexivity.
  - lia.
Defined.

(** C1 at the input where it fails: the service answers the first page
    request with one card and no bookmark.  The page decodes, yet the
    consumer receives no card; the iteration ends after that one request. *)
Theorem list_cards_drops_last_page fuel :
  (MochiClient._list_cards Fixtures.plain Fixtures.last_page_with_card
     Fixtures.client None None None Fixtures.no_env).1
  = inr {| PaginatedCards.bookmark := None;
           PaginatedCards.docs := [Fixtures.card "card_1" "1"] |}
  ∧ MochiClient.list_ Fixtures.plain Fixtures.last_page_with_card (S fuel)
      (MochiClient.list_cards Fixtures.client None None None) Fixtures.no_env
    = ([], MochiClient.Exhausted,
       {| environ := ∅;
          sent := [MochiClient.page_request Fixtures.client None None None] |}).
Proof. split; vm_compute; reflexivity. Qed.

(** * Further properties of the code *)

(** ** Construction of the client *)

(** X1.  A client that was constructed has the base address it was given, a
    key that is not empty, taken from the argument or else from
    [MOCHI_API_KEY], and the two headers built from that key; constructing it
    sent nothing. *)
Theorem init_success_inv api_key base_url w c w' :
  MochiClient.__init__ api_key base_url w = (inr c, w') →
  w' = w
  ∧ MochiClient.base_url c = base_url
  ∧ MochiClient.api_key c ≠ EmptyString
  ∧ MochiClient.headers c
    = [ ("Authorization", "Bearer " +:+ MochiClient.api_key c);
        ("Content-Type", "application/json") ]
  ∧ (api_key = Some (MochiClient.api_key c)
     ∨ (api_key = None
        ∧ environ w !! "MOCHI_API_KEY" = Some (MochiClient.api_key c))).
Proof.
  unfold MochiClient.__init__, MochiClient.environ_get, mbind, M_bind.
  destruct api_key as [key|]; cbn.
  - destruct (String.eqb_spec key EmptyString) as [->|Hne]; [done|].
    intros [= <- <-]. cbn. auto 10.
  - destruct (environ w !! "MOCHI_API_KEY") as [key|] eqn:Henv; [|done].
    destruct (String.eqb_spec key EmptyString) as [->|Hne]; [done|].
    intros [= <- <-]. cbn. auto 10.
Qed.

Lemma init_success_inv_witness :
  Fixtures.no_env = Fixtures.no_env
  ∧ MochiClient.base_url Fixtures.client = Fixtures.local_url
  ∧ MochiClient.api_key Fixtures.client ≠ EmptyString
  ∧ MochiClient.headers Fixtures.client
    = [ ("Authorization", "Bearer " +:+ MochiClient.api_key Fixtures.client);
        ("Content-Type", "application/json") ]
  ∧ (Some "secret" = Some (MochiClient.api_key Fixtures.client)
     ∨ (Some "secret" = None
        ∧ environ Fixtures.no_env !! "MOCHI_API_KEY"
          = Some (MochiClient.api_key Fixtures.client))).
Proof.
  apply (init_success_inv (Some "secret") Fixtures.local_url Fixtures.no_env
           Fixtures.client Fixtures.no_env).
  reflexivity.
Defined.

(** X2.  A key passed as argument is the one used, whatever the environment
    holds: [MOCHI_API_KEY] is not even read. *)
Theorem init_argument_wins key base_url w :
  key ≠ EmptyString →
  MochiClient.__init__ (Some key) base_url w
  = (inr {| MochiClient.api_key := key;
            MochiClient.base_url := base_url;
            MochiClient.headers :=
              [ ("Authorization", "Bearer " +:+ key);
                ("Content-Type", "application/json") ] |}, w).
Proof.
  intros Hne. unfold MochiClient.__init__, mbind, M_bind; cbn.
  by destruct (String.eqb_spec key EmptyString).
Qed.

Lemma init_argument_wins_witness :
  MochiClient.__init__ (Some "secret") Fixtures.local_url
    (Cases.with_env "other")
  = (inr Fixtures.client, Cases.with_env "other").
Proof.
  apply (init_argument_wins "secret" Fixtures.local_url (Cases.with_env "other")).
  discriminate.
Defined.

(** X3.  An empty string passed as the key is refused with the
    [ValueError]: the environment is consulted only when the argument is
    [None], so a key in [MOCHI_API_KEY] does not help. *)
Theorem init_empty_argument base_url w :
  MochiClient.__init__ (Some EmptyString) base_url w
  = (inl (ValueError MochiClient.no_api_key), w).
Proof. reflexivity. Qed.

(** X4.  Without the argument, a non-empty [MOCHI_API_KEY] is the key of the
    client. *)
Theorem init_env_fallback key base_url w :
  environ w !! "MOCHI_API_KEY" = Some key →
  key ≠ EmptyString →
  MochiClient.__init__ None base_url w
  = (inr {| MochiClient.api_key := key;
            MochiClient.base_url := base_url;
            MochiClient.headers :=
              [ ("Authorization", "Bearer " +:+ key);
                ("Content-Type", "application/json") ] |}, w).
Proof.
  intros Henv Hne.
  unfold MochiClient.__init__, MochiClient.environ_get, mbind, M_bind.
  rewrite Henv. cbn. by destruct (String.eqb_spec key EmptyString).
Qed.

Lemma init_env_fallback_witness :
  MochiClient.__init__ None Fixtures.local_url (Cases.with_env "secret")
  = (inr Fixtures.client, Cases.with_env "secret").
Proof.
  apply (init_env_fallback "secret" Fixtures.local_url (Cases.with_env "secret")).
  - vm_compute. reflexivity.
  - discriminate.
Defined.

(** ** What the operations send and return *)

Section OperationFacts.
Context (V : Validators) (remote : service).
Import MochiClient.

Lemma delete_card_run self card_id w :
  let q := requests.delete (base_url self +:+ "/cards/" +:+ card_id)
             (headers self) (Some 5%Z) in
  delete_card remote self card_id w
  = (match remote (sent w) q with
     | inl e => inl e
     | inr r => if requests.ok r then inr tt
                else inl (HTTPError (requests.status_code r))
     end,
     {| environ := environ w; sent := sent w ++ [q] |}).
Proof.
  intros q. unfold delete_card, mbind, M_bind, send, raise_for_status.
  fold q. destruct (remote (sent w) q) as [e|r]; [done|].
  by destruct (requests.ok r).
Qed.

Lemma trash_card_run self card_id w :
  let q := requests.post (BASE_URL +:+ "/cards/" +:+ card_id +:+ "/trash")
             None (headers self) None in
  trash_card remote self card_id w
  = (match remote (sent w) q with
     | inl e => inl e
     | inr r =>
         if (requests.status_code r =? 401)%Z then
           inl (MochiAuthenticationError "Invalid API key provided.")
         else if (requests.status_code r =? 404)%Z then
           inl (MochiNotFoundError ("Card with ID " +:+ card_id +:+ " not found."))
         else if negb (requests.ok r) then
           match requests.body r with
           | None => inl JSONDecodeError
           | Some (PDict d) =>
               inl (MochiError (default (PStr "Unknown error occurred.")
                                  (d !! "message")))
           | Some _ => inl AttributeError
           end
         else
           match requests.body r with
           | None => inl JSONDecodeError
           | Some v => inr v
           end
     end,
     {| environ := environ w; sent := sent w ++ [q] |}).
Proof.
  intros q. unfold trash_card, mbind, M_bind, send, response_json.
  fold q. destruct (remote (sent w) q) as [e|r]; [done|].
  destruct (_ =? 401)%Z; [done|]. destruct (_ =? 404)%Z; [done|].
  destruct (negb _); destruct (requests.body r) as [[]|]; done.
Qed.

(** The exceptions of a model constructor are [TypeError] and
    [ValidationError]. *)
Lemma construct_not_MochiError {A} (r : Pydantic.vres A) e :
  Pydantic.construct r = inl e → is_MochiError e = false.
Proof. destruct r; [intros [= <-]|]; done. Qed.

Lemma Card_new_not_MochiError v e :
  Card.new V v = inl e → is_MochiError e = false.
Proof.
  unfold Card.new. destruct v; cbn; try (by intros [= <-]).
  apply construct_not_MochiError.
Qed.

Lemma PaginatedCards_new_not_MochiError v e :
  PaginatedCards.new V v = inl e → is_MochiError e = false.
Proof.
  unfold PaginatedCards.new. destruct v; cbn; try (by intros [= <-]).
  apply construct_not_MochiError.
Qed.

(** The outcome of a request whose answer is decoded by [new]: an exception
    that is a [MochiError] can only have come from the transport. *)
Lemma decoded_not_MochiError {A} (new : pyval → exn + A) (x : exn + response) e :
  (∀ v e', new v = inl e' → is_MochiError e' = false) →
  match x with
  | inl e0 => inl e0
  | inr r =>
      if requests.ok r
      then match requests.body r with
           | Some v => new v
           | None => inl JSONDecodeError
           end
      else inl (HTTPError (requests.status_code r))
  end = inl e →
  is_MochiError e = true → x = inl e.
Proof.
  intros Hnew. destruct x as [e0|r]; [by intros [= ->]|].
  destruct (requests.ok r); [|by intros [= <-]].
  destruct (requests.body r) as [v|]; [|by intros [= <-]].
  intros Hv He. by rewrite (Hnew v e Hv) in He.
Qed.

End OperationFacts.

Lemma sent_since_app w w' qs : sent w' = sent w ++ qs → sent_since w w' = qs.
Proof. intros E. unfold sent_since. by rewrite E, drop_app_length. Qed.

Lemma sent_since_run {A} w (x : exn + A) qs :
  sent_since w (x, {| environ := environ w; sent := sent w ++ qs |}).2 = qs.
Proof. by apply sent_since_app. Qed.

(** Whatever its arguments, [update_card] sends nothing or one request, and
    the request has the headers of the client and a timeout of five
    seconds. *)
Lemma update_card_sent_shape V remote self card_id content deck_id fields
    attachments archived pos w :
  Forall (λ q, requests.headers q = MochiClient.headers self
               ∧ requests.timeout q = Some 5%Z)
    (sent_since w (MochiClient.update_card V remote self card_id content
                     deck_id fields attachments archived pos w).2).
Proof.
  destruct content as [c|], deck_id as [d|], archived as [a|];
    try (edestruct (update_card_refused V remote self card_id) as [es ->];
         [eauto|]; unfold sent_since; cbn; rewrite drop_all; by constructor).
  rewrite update_card_run, sent_since_run. by repeat constructor.
Qed.

(** X5.  Every request that an operation sends carries the headers of the
    client, hence its [Authorization] header.  Every operation but
    [trash_card] sets a timeout of five seconds; [trash_card] sets none. *)
Theorem requests_carry_client_headers V remote self w :
  let authorised (t : option Z) (q : request) :=
    requests.headers q = MochiClient.headers self ∧ requests.timeout q = t in
  (∀ content deck_id template_id fields attachments archived pos review_reverse,
     Forall (authorised (Some 5%Z))
       (sent_since w (MochiClient.create_card V remote self content deck_id
                        template_id fields attachments archived pos
                        review_reverse w).2))
  ∧ (∀ card_id,
       Forall (authorised (Some 5%Z))
         (sent_since w (MochiClient.get_card V remote self card_id w).2))
  ∧ (∀ card_id content deck_id fields attachments archived pos,
       Forall (authorised (Some 5%Z))
         (sent_since w (MochiClient.update_card V remote self card_id content
                          deck_id fields attachments archived pos w).2))
  ∧ (∀ card_id,
       Forall (authorised (Some 5%Z))
         (sent_since w (MochiClient.delete_card remote self card_id w).2))
  ∧ (∀ deck_id limit bookmark fuel,
       Forall (authorised (Some 5%Z))
         (sent_since w (MochiClient.list_ V remote fuel
                          (MochiClient.list_cards self deck_id limit bookmark)
                          w).2))
  ∧ (∀ card_id,
       Forall (authorised None)
         (sent_since w (MochiClient.trash_card remote self card_id w).2)).
Proof.
  intros authorised. repeat split; intros.
  - rewrite create_card_run, sent_since_run. by repeat constructor.
  - rewrite get_card_run, sent_since_run. by repeat constructor.
  - apply update_card_sent_shape.
  - rewrite delete_card_run, sent_since_run. by repeat constructor.
  - destruct (list_sent V remote fuel
                (MochiClient.list_cards self deck_id limit bookmark) w)
      as [bs Hbs].
    rewrite (sent_since_app _ _ _ Hbs). apply Forall_fmap, Forall_true.
    by intros b.
  - rewrite trash_card_run, sent_since_run. by repeat constructor.
Qed.

(** X6.  [get_card] returns a [Card] only when the service answered with a
    status outside 400..599 and a JSON object that validates as that very
    [Card]; exactly one request, the [GET] for the card, was sent. *)
Theorem get_card_returns_inv V remote self card_id w c w' :
  MochiClient.get_card V remote self card_id w = (inr c, w') →
  let q := requests.get (MochiClient.base_url self +:+ "/cards/" +:+ card_id)
             None (MochiClient.headers self) (Some 5%Z) in
  ∃ r kw,
    remote (sent w) q = inr r
    ∧ requests.ok r = true
    ∧ requests.body r = Some (PDict kw)
    ∧ Card.validate_model V kw = inr c
    ∧ sent w' = sent w ++ [q].
Proof.
  rewrite get_card_run. intros [= Hres <-] q. fold q in Hres.
  destruct (remote (sent w) q) as [e|r]; [done|].
  destruct (requests.ok r) eqn:Hok; [|done].
  destruct (requests.body r) as [v|] eqn:Hbody; [|done].
  unfold Card.new in Hres. destruct v; try done. cbn in Hres.
  destruct (Card.validate_model V d) as [es|c'] eqn:Hv; [done|].
  injection Hres as ->. by exists r, d.
Qed.

Lemma get_card_returns_inv_witness :
  let q := requests.get
             (MochiClient.base_url Fixtures.client +:+ "/cards/" +:+ "card_1")
             None (MochiClient.headers Fixtures.client) (Some 5%Z) in
  ∃ r kw,
    Fixtures.echo (sent Fixtures.no_env) q = inr r
    ∧ requests.ok r = true
    ∧ requests.body r = Some (PDict kw)
    ∧ Card.validate_model Fixtures.plain kw = inr (Fixtures.card "card_1" "1")
    ∧ sent {| environ := ∅; sent := [q] |} = sent Fixtures.no_env ++ [q].
Proof.
  apply (get_card_returns_inv Fixtures.plain Fixtures.echo Fixtures.client
           "card_1" Fixtures.no_env (Fixtures.card "card_1" "1")).
  vm_compute. reflexivity.
Defined.

(** X7.  The outcome of [delete_card] is decided by the status alone: the
    body of the answer is never read, so a status outside 400..599 is a
    success even when the body is not JSON, and a status inside is the
    [HTTPError] of that status. *)
Theorem delete_card_by_status remote self card_id w r :
  remote (sent w)
    (requests.delete (MochiClient.base_url self +:+ "/cards/" +:+ card_id)
       (MochiClient.headers self) (Some 5%Z)) = inr r →
  (MochiClient.delete_card remote self card_id w).1
  = if ((400 <=? requests.status_code r) && (requests.status_code r <? 600))%Z
    then inl (HTTPError (requests.status_code r))
    else inr tt.
Proof.
  intros Hr. rewrite delete_card_run. cbn [fst]. rewrite Hr.
  unfold requests.ok. by destruct (_ && _).
Qed.

Lemma delete_card_by_status_witness :
  (MochiClient.delete_card (Cases.replies 204 None) Fixtures.client "card_1"
     Fixtures.no_env).1 = inr tt.
Proof.
  apply (delete_card_by_status (Cases.replies 204 None) Fixtures.client
           "card_1" Fixtures.no_env
           {| requests.status_code := 204; requests.body := None |}).
  reflexivity.
Defined.

(** X8.  The exception classes of [mochicards.errors] are raised by
    [trash_card] alone: when [create_card], [get_card], [update_card],
    [delete_card] or a page request raises a [MochiError], it is the
    transport that raised it on the last request sent. *)
Theorem no_MochiError_outside_trash V remote self w e :
  is_MochiError e = true →
  let from_transport {A} (run : (exn + A) * world) :=
    run.1 = inl e →
    ∃ log q, sent run.2 = log ++ [q] ∧ remote log q = inl e in
  (∀ content deck_id template_id fields attachments archived pos review_reverse,
     from_transport (MochiClient.create_card V remote self content deck_id
                       template_id fields attachments archived pos
                       review_reverse w))
  ∧ (∀ card_id, from_transport (MochiClient.get_card V remote self card_id w))
  ∧ (∀ card_id content deck_id fields attachments archived pos,
       from_transport (MochiClient.update_card V remote self card_id content
                         deck_id fields attachments archived pos w))
  ∧ (∀ card_id, from_transport (MochiClient.delete_card remote self card_id w))
  ∧ (∀ deck_id limit bookmark,
       from_transport (MochiClient._list_cards V remote self deck_id limit
                         bookmark w)).
Proof.
  intros He from_transport. unfold from_transport. repeat split; intros.
  - rewrite create_card_run in *. cbn [fst snd sent] in *.
    eexists _, _. split; [done|].
    eapply decoded_not_MochiError; [apply (Card_new_not_MochiError V)|eassumption..].
  - rewrite get_card_run in *. cbn [fst snd sent] in *.
    eexists _, _. split; [done|].
    eapply decoded_not_MochiError; [apply (Card_new_not_MochiError V)|eassumption..].
  - destruct content as [c|], deck_id as [d|], archived as [a|];
      try (match goal with
           | H : (MochiClient.update_card _ _ _ _ ?c ?d ?f ?t ?a ?p _).1 = _ |- _ =>
               destruct (update_card_refused V remote self card_id c d f t a p w)
                 as [es Hes]; [auto|];
               rewrite Hes in H; cbn in H; simplify_eq; by cbn in *
           end).
    rewrite update_card_run in *. cbn [fst snd sent] in *.
    eexists _, _. split; [done|].
    eapply decoded_not_MochiError; [apply (Card_new_not_MochiError V)|eassumption..].
  - rewrite delete_card_run in *. cbn [fst snd sent] in *.
    eexists _, _. split; [done|].
    destruct (remote _ _) as [e0|r]; [congruence|].
    destruct (requests.ok r); simplify_eq; done.
  - rewrite _list_cards_run in *. cbn [fst snd sent] in *.
    eexists _, _. split; [done|].
    eapply decoded_not_MochiError;
      [apply (PaginatedCards_new_not_MochiError V)|eassumption..].
Qed.

Lemma no_MochiError_outside_trash_witness :
  ∃ log q,
    sent (MochiClient.get_card Fixtures.plain Cases.adapter_raises
            Fixtures.client "card_1" Fixtures.no_env).2 = log ++ [q]
    ∧ Cases.adapter_raises log q = inl (MochiError (PStr "adapter closed")).
Proof.
  apply (proj1 (proj2 (no_MochiError_outside_trash Fixtures.plain
                         Cases.adapter_raises Fixtures.client Fixtures.no_env
                         (MochiError (PStr "adapter closed")) eq_refl))
           "card_1").
  vm_compute. reflexivity.
Defined.

(** ** [trash_card] *)

(** X9.  [trash_card] turns a 401 into [MochiAuthenticationError] and a 404
    into [MochiNotFoundError] with the card id in its text; both are
    [MochiError]s, and the body of the answer is not read. *)
Theorem trash_card_401_404 remote self card_id w r :
  remote (sent w)
    (requests.post
       (MochiClient.BASE_URL +:+ "/cards/" +:+ card_id +:+ "/trash")
       None (MochiClient.headers self) None) = inr r →
  requests.status_code r = 401%Z ∨ requests.status_code r = 404%Z →
  ∃ e, (MochiClient.trash_card remote self card_id w).1 = inl e
       ∧ is_MochiError e = true
       ∧ e = if (requests.status_code r =? 401)%Z
             then MochiAuthenticationError "Invalid API key provided."
             else MochiNotFoundError
                    ("Card with ID " +:+ card_id +:+ " not found.").
Proof.
  intros Hr Hs. rewrite trash_card_run. cbn [fst]. rewrite Hr.
  destruct Hs as [-> | ->]; cbn; eauto.
Qed.

Lemma trash_card_401_404_witness :
  ∃ e, (MochiClient.trash_card (Cases.replies 404 None) Fixtures.client
          "card_1" Fixtures.no_env).1 = inl e
       ∧ is_MochiError e = true
       ∧ e = if (404 =? 401)%Z
             then MochiAuthenticationError "Invalid API key provided."
             else MochiNotFoundError ("Card with ID " +:+ "card_1" +:+ " not found.").
Proof.
  apply (trash_card_401_404 (Cases.replies 404 None) Fixtures.client "card_1"
           Fixtures.no_env
           {| requests.status_code := 404; requests.body := None |}).
  - reflexivity.
  - right. reflexivity.
Defined.

(** X10.  Any other status in 400..599 whose body is a JSON object becomes a
    [MochiError] that carries the [message] of the body, or the text
    [Unknown error occurred.] when the body has no such key. *)
Theorem trash_card_service_error remote self card_id w r d :
  remote (sent w)
    (requests.post
       (MochiClient.BASE_URL +:+ "/cards/" +:+ card_id +:+ "/trash")
       None (MochiClient.headers self) None) = inr r →
  (400 ≤ requests.status_code r < 600)%Z →
  requests.status_code r ≠ 401%Z → requests.status_code r ≠ 404%Z →
  requests.body r = Some (PDict d) →
  (MochiClient.trash_card remote self card_id w).1
  = inl (MochiError (match d !! "message" with
                     | Some detail => detail
                     | None => PStr "Unknown error occurred."
                     end)).
Proof.
  intros Hr [Hlo Hhi] H401 H404 Hbody. rewrite trash_card_run. cbn [fst].
  rewrite Hr, Hbody.
  destruct (Z.eqb_spec (requests.status_code r) 401); [done|].
  destruct (Z.eqb_spec (requests.status_code r) 404); [done|].
  unfold requests.ok.
  destruct (Z.leb_spec 400 (requests.status_code r)); [|lia].
  destruct (Z.ltb_spec (requests.status_code r) 600); [|lia].
  cbn. by destruct (d !! "message").
Qed.

Lemma trash_card_service_error_witness :
  (MochiClient.trash_card
     (Cases.replies 500 (Some (PDict {[ "message" := PStr "boom" ]})))
     Fixtures.client "card_1" Fixtures.no_env).1
  = inl (MochiError
           (match ({[ "message" := PStr "boom" ]} : gmap string pyval) !! "message" with
            | Some detail => detail
            | None => PStr "Unknown error occurred."
            end)).
Proof.
  apply (trash_card_service_error
           (Cases.replies 500 (Some (PDict {[ "message" := PStr "boom" ]})))
           Fixtures.client "card_1" Fixtures.no_env
           {| requests.status_code := 500;
              requests.body := Some (PDict {[ "message" := PStr "boom" ]}) |}).
  - reflexivity.
  - cbn. lia.
  - cbn. lia.
  - cbn. lia.
  - reflexivity.
Defined.

(** X11.  When such an error answer has no JSON object for a body, the
    exception that leaves [trash_card] is not a [MochiError]: reading the
    detail raises [JSONDecodeError] for a body that is not JSON and
    [AttributeError] for JSON that is not an object. *)
Theorem trash_card_error_without_object remote self card_id w r :
  remote (sent w)
    (requests.post
       (MochiClient.BASE_URL +:+ "/cards/" +:+ card_id +:+ "/trash")
       None (MochiClient.headers self) None) = inr r →
  (400 ≤ requests.status_code r < 600)%Z →
  requests.status_code r ≠ 401%Z → requests.status_code r ≠ 404%Z →
  (∀ d, requests.body r ≠ Some (PDict d)) →
  (MochiClient.trash_card remote self card_id w).1
  = inl (match requests.body r with
         | None => JSONDecodeError
         | Some _ => AttributeError
         end).
Proof.
  intros Hr [Hlo Hhi] H401 H404 Hbody. rewrite trash_card_run. cbn [fst].
  rewrite Hr.
  destruct (Z.eqb_spec (requests.status_code r) 401); [done|].
  destruct (Z.eqb_spec (requests.status_code r) 404); [done|].
  unfold requests.ok.
  destruct (Z.leb_spec 400 (requests.status_code r)); [|lia].
  destruct (Z.ltb_spec (requests.status_code r) 600); [|lia].
  cbn. destruct (requests.body r) as [[]|]; try done.
  by destruct (Hbody d).
Qed.

Lemma trash_card_error_without_object_witness :
  (MochiClient.trash_card (Cases.replies 502 None) Fixtures.client "card_1"
     Fixtures.no_env).1 = inl JSONDecodeError.
Proof.
  apply (trash_card_error_without_object (Cases.replies 502 None)
           Fixtures.client "card_1" Fixtures.no_env
           {| requests.status_code := 502; requests.body := None |}).
  - reflexivity.
  - cbn. lia.
  - cbn. lia.
  - cbn. lia.
  - intros d. discriminate.
Defined.

(** X12.  On a status outside 400..599 [trash_card] returns the parsed body
    as it is, whatever JSON value it is: nothing is validated, and no [Card]
    is built. *)
Theorem trash_card_returns_raw remote self card_id w r v :
  remote (sent w)
    (requests.post
       (MochiClient.BASE_URL +:+ "/cards/" +:+ card_id +:+ "/trash")
       None (MochiClient.headers self) None) = inr r →
  ¬ (400 ≤ requests.status_code r < 600)%Z →
  requests.body r = Some v →
  (MochiClient.trash_card remote self card_id w).1 = inr v.
Proof.
  intros Hr Hs Hbody. rewrite trash_card_run. cbn [fst]. rewrite Hr, Hbody.
  destruct (Z.eqb_spec (requests.status_code r) 401); [lia|].
  destruct (Z.eqb_spec (requests.status_code r) 404); [lia|].
  unfold requests.ok.
  destruct (Z.leb_spec 400 (requests.status_code r));
    destruct (Z.ltb_spec (requests.status_code r) 600); cbn; try done; lia.
Qed.

Lemma trash_card_returns_raw_witness :
  (MochiClient.trash_card (Cases.replies 200 (Some (PList [])))
     Fixtures.client "card_1" Fixtures.no_env).1 = inr (PList []).
Proof.
  apply (trash_card_returns_raw (Cases.replies 200 (Some (PList [])))
           Fixtures.client "card_1" Fixtures.no_env
           {| requests.status_code := 200; requests.body := Some (PList []) |}).
  - reflexivity.
  - cbn. lia.
  - reflexivity.
Defined.

(** ** The models *)

Section ModelFacts.
Context (V : Validators).
Import Pydantic.

Lemma vap_inr_inv {A B} (f : vres (A → B)) (x : vres A) b :
  f ⊛ x = inr b → ∃ g a, f = inr g ∧ x = inr a ∧ b = g a.
Proof. destruct f as [|g], x as [|a]; try done. intros [= <-]. eauto. Qed.

Lemma under_inr_inv {A} i (r : vres A) a : under i r = inr a → r = inr a.
Proof. by destruct r. Qed.

Lemma defaulted_absent {A} alias (t : tv A) dflt kw a :
  kw !! alias = None → defaulted alias t dflt kw = inr a → a = dflt.
Proof. unfold defaulted. intros ->. by intros [= <-]. Qed.

Lemma defaulted_none {A} alias (t : tv A) dflt kw :
  kw !! alias = Some PNone →
  fails_with ([LKey alias], NoneNotAllowed) (defaulted alias (not_none t) dflt kw).
Proof.
  intros Hk. unfold defaulted. rewrite Hk. apply fails_with_under.
  eexists. split; [done|]. apply list_elem_of_here.
Qed.

Lemma construct_fails {A} e (r : vres A) :
  fails_with e r → ∃ es, construct r = inl (ValidationError es) ∧ e ∈ es.
Proof. intros (es & -> & Hin). by exists es. Qed.

(** A [Card] that was built holds, field by field, the outcome of that
    field's validation. *)
Lemma Card_validate_model_inv kw c :
  Card.validate_model V kw = inr c →
  required "id" (not_none (str_ V)) kw = inr (Card.id c)
  ∧ required "content" (not_none (str_ V)) kw = inr (Card.content c)
  ∧ required "deck-id" (not_none (str_ V)) kw = inr (Card.deck_id c)
  ∧ defaulted "template-id" (optional (str_ V)) None kw = inr (Card.template_id c)
  ∧ defaulted "fields" (not_none (bare_dict V)) ∅ kw = inr (Card.fields c)
  ∧ defaulted "attachments" (not_none bare_list) [] kw = inr (Card.attachments c)
  ∧ defaulted "archived?" (not_none (bool_ V)) false kw = inr (Card.archived c)
  ∧ defaulted "pos" (optional (str_ V)) None kw = inr (Card.pos c)
  ∧ required "created-at" (not_none (dict_of V (datetime_ V))) kw
    = inr (Card.created_at c)
  ∧ required "updated-at" (not_none (dict_of V (datetime_ V))) kw
    = inr (Card.updated_at c)
  ∧ defaulted "tags" (not_none (list_of (not_none (str_ V)))) [] kw
    = inr (Card.tags c)
  ∧ defaulted "name" (optional (str_ V)) None kw = inr (Card.name c)
  ∧ defaulted "references" (not_none (list_of (not_none (str_ V)))) [] kw
    = inr (Card.references c)
  ∧ defaulted "reviews" (not_none (list_of (not_none (str_ V)))) [] kw
    = inr (Card.reviews c).
Proof.
  unfold Card.validate_model. intros H.
  repeat match type of H with
    | _ ⊛ _ = inr _ =>
        let g := fresh "g" in let a := fresh "a" in
        let Ha := fresh "Ha" in
        apply vap_inr_inv in H as (g & a & H & Ha & ->)
    end.
  injection H as <-. cbn. by repeat split.
Qed.

Lemma Card_new_inv kw c :
  Card.new V (PDict kw) = inr c → Card.validate_model V kw = inr c.
Proof.
  unfold Card.new, construct; cbn.
  by destruct (Card.validate_model V kw); intros [= <-].
Qed.

(** Validation of a sequence keeps the length and the order, and an error of
    the element at index [i] is reported under that index. *)
Lemma each_inv {A} (t : tv A) n l cs :
  each t n l = inr cs → Forall2 (λ x c, t x = inr c) l cs.
Proof.
  revert n cs. induction l as [|x l IH]; intros n cs; cbn [each].
  { intros [= <-]. constructor. }
  intros H. apply vap_inr_inv in H as (g & cs' & H & Hcs & ->).
  apply vap_inr_inv in H as (g' & c & H & Hc & ->).
  injection H as <-. constructor; [by eapply under_inr_inv|by eapply IH].
Qed.

Lemma each_fails {A} (t : tv A) n l i x loc kind :
  l !! i = Some x → fails_with (loc, kind) (t x) →
  fails_with (LIdx (n + i) :: loc, kind) (each t n l).
Proof.
  revert n i. induction l as [|y l IH]; intros n i; [done|].
  destruct i as [|i]; cbn [each].
  - intros [= ->] Hf. rewrite Nat.add_0_r.
    apply fails_with_vap_l, fails_with_vap_r. by apply fails_with_under.
  - intros Hi Hf. replace (n + S i) with (S n + i) by lia.
    apply fails_with_vap_r. by apply IH.
Qed.

(** An error of one value of a mapping is reported under its key. *)
Lemma dict_of_fails {A} (t : tv A) v d key x loc kind :
  dict_validator V v = Some d → d !! key = Some x →
  fails_with (loc, kind) (not_none t x) →
  fails_with (LKey key :: loc, kind) (dict_of V t v).
Proof.
  intros Hd Hx (es0 & Hes0 & Hin). unfold dict_of. rewrite Hd.
  set (rs := (λ x, not_none t x) <$> d).
  set (es := map_to_list rs ≫= _).
  assert ((LKey key :: loc, kind) ∈ es) as Hes.
  { apply list_elem_of_bind. exists (key, inl es0). split.
    - cbn. apply list_elem_of_fmap. by exists (loc, kind).
    - apply elem_of_map_to_list. subst rs. by rewrite lookup_fmap, Hx; cbn; rewrite Hes0. }
  destruct es as [|e es']; [by apply elem_of_nil in Hes|].
  by eexists.
Qed.

End ModelFacts.

(** X13.  A wire key that is absent leaves its field at the default of the
    model: no template, no fields, no attachments, not archived, no position,
    no tags, no name, no references, no reviews. *)
Theorem Card_new_defaults V (kw : gmap string pyval) (c : Card.t) :
  Card.new V (PDict kw) = inr c →
  (kw !! "template-id" = None → Card.template_id c = None)
  ∧ (kw !! "fields" = None → Card.fields c = ∅)
  ∧ (kw !! "attachments" = None → Card.attachments c = [])
  ∧ (kw !! "archived?" = None → Card.archived c = false)
  ∧ (kw !! "pos" = None → Card.pos c = None)
  ∧ (kw !! "tags" = None → Card.tags c = [])
  ∧ (kw !! "name" = None → Card.name c = None)
  ∧ (kw !! "references" = None → Card.references c = [])
  ∧ (kw !! "reviews" = None → Card.reviews c = []).
Proof.
  intros H. apply Card_new_inv, Card_validate_model_inv in H.
  destruct H as (_ & _ & _ & H4 & H5 & H6 & H7 & H8 & _ & _ & H11 & H12 & H13 & H14).
  repeat split; intros Hk; by eapply defaulted_absent.
Qed.

Lemma Card_new_defaults_witness :
  let kw := Cases.bare_card in
  let c := Cases.bare_card_decoded in
  (kw !! "template-id" = None → Card.template_id c = None)
  ∧ (kw !! "fields" = None → Card.fields c = ∅)
  ∧ (kw !! "attachments" = None → Card.attachments c = [])
  ∧ (kw !! "archived?" = None → Card.archived c = false)
  ∧ (kw !! "pos" = None → Card.pos c = None)
  ∧ (kw !! "tags" = None → Card.tags c = [])
  ∧ (kw !! "name" = None → Card.name c = None)
  ∧ (kw !! "references" = None → Card.references c = [])
  ∧ (kw !! "reviews" = None → Card.reviews c = []).
Proof.
  apply (Card_new_defaults Fixtures.plain Cases.bare_card
           Cases.bare_card_decoded).
  vm_compute. reflexivity.
Defined.

(** X14.  For the three [Optional] fields a wire key that is [null] decodes
    exactly like a key that is absent. *)
Theorem Card_null_optional_is_absent V (kw : gmap string pyval) (k : string) :
  k = "template-id" ∨ k = "pos" ∨ k = "name" →
  Card.new V (PDict (<[k := PNone]> kw)) = Card.new V (PDict (delete k kw)).
Proof.
  intros Hk. unfold Card.new, kwargs_of. f_equal.
  unfold Card.validate_model, Pydantic.required, Pydantic.defaulted.
  destruct Hk as [-> | [-> | ->]];
    rewrite lookup_insert_eq, lookup_delete_eq;
    rewrite !lookup_insert_ne, !lookup_delete_ne by done; reflexivity.
Qed.

Lemma Card_null_optional_is_absent_witness :
  Card.new Fixtures.plain (PDict (<["name" := PNone]> Cases.bare_card))
  = Card.new Fixtures.plain (PDict (delete "name" Cases.bare_card)).
Proof.
  apply (Card_null_optional_is_absent Fixtures.plain Cases.bare_card "name").
  right. right. reflexivity.
Defined.

(** X15.  For the six fields that have a default but are not [Optional], a
    wire key that is [null] is refused: decoding fails with
    [none.not_allowed] at that key, it does not fall back to the default. *)
Theorem Card_null_defaulted_refused V (kw : gmap string pyval) (k : string) :
  k = "fields" ∨ k = "attachments" ∨ k = "archived?" ∨ k = "tags"
    ∨ k = "references" ∨ k = "reviews" →
  kw !! k = Some PNone →
  ∃ es, Card.new V (PDict kw) = inl (ValidationError es)
        ∧ ([LKey k], NoneNotAllowed) ∈ es.
Proof.
  intros Hk Hnull. unfold Card.new, kwargs_of.
  apply construct_fails. unfold Card.validate_model.
  destruct Hk as [-> | [-> | [-> | [-> | [-> | ->]]]]];
    repeat first
      [ apply fails_with_vap_r; apply defaulted_none; exact Hnull
      | apply fails_with_vap_l ].
Qed.

Lemma Card_null_defaulted_refused_witness :
  ∃ es, Card.new Fixtures.plain
          (PDict (<["archived?" := PNone]> Cases.bare_card))
        = inl (ValidationError es)
        ∧ ([LKey "archived?"], NoneNotAllowed) ∈ es.
Proof.
  apply (Card_null_defaulted_refused Fixtures.plain
           (<["archived?" := PNone]> Cases.bare_card) "archived?").
  - right. right. left. reflexivity.
  - vm_compute. reflexivity.
Defined.

(** X16.  The two timestamps are required as well, and each is a mapping
    whose every value must be a timestamp: when [created-at] or [updated-at]
    is absent, is [null], or holds a mapping with a value that is [null] or
    that the timestamp parser refuses, decoding fails with an error located
    at that key. *)
Theorem Card_new_timestamp_refused V (kw : gmap string pyval) (k : string) :
  k = "created-at" ∨ k = "updated-at" →
  kw !! k = None ∨ kw !! k = Some PNone
    ∨ (∃ v d key x, kw !! k = Some v ∧ dict_validator V v = Some d
                    ∧ d !! key = Some x
                    ∧ (x = PNone ∨ parse_datetime V x = None)) →
  ∃ es loc kind, Card.new V (PDict kw) = inl (ValidationError es)
                 ∧ (LKey k :: loc, kind) ∈ es.
Proof.
  intros Hk Hbad.
  assert (∃ loc kind, Pydantic.fails_with (LKey k :: loc, kind)
            (Pydantic.required k
               (Pydantic.not_none (Pydantic.dict_of V (Pydantic.datetime_ V))) kw))
    as (loc & kind & Hf).
  { destruct Hbad as [H|[H|(v & d & key & x & H & Hd & Hx & Hbad)]].
    - exists [], Missing. by apply required_missing.
    - exists [], NoneNotAllowed. by apply required_none.
    - assert (∃ kind', Pydantic.fails_with ([], kind')
                (Pydantic.not_none (Pydantic.datetime_ V) x)) as [kind' Hx'].
      { destruct Hbad as [-> | Hp].
        - exists NoneNotAllowed. eexists. split; [done|]. apply list_elem_of_here.
        - destruct x; [exists NoneNotAllowed|exists TypeInvalid..];
            (eexists; split; [|apply list_elem_of_here]);
            unfold Pydantic.not_none, Pydantic.datetime_, Pydantic.leaf;
            try done; by rewrite Hp. }
      destruct v;
        [exists [], NoneNotAllowed; by apply required_none|..];
        exists [LKey key], kind'; unfold Pydantic.required; rewrite H;
        apply fails_with_under; cbn [Pydantic.not_none];
        by eapply dict_of_fails. }
  assert (Pydantic.fails_with (LKey k :: loc, kind) (Card.validate_model V kw))
    as Hm.
  { unfold Card.validate_model.
    destruct Hk as [-> | ->];
      repeat first [ apply fails_with_vap_r; exact Hf | apply fails_with_vap_l ]. }
  destruct (construct_fails _ _ Hm) as (es & Hes & Hin).
  exists es, loc, kind. unfold Card.new, kwargs_of. by rewrite Hes.
Qed.

Lemma Card_new_timestamp_refused_witness :
  ∃ es loc kind,
    Card.new Fixtures.plain
      (PDict (<["created-at" := PDict {[ "date" := PStr "yesterday" ]}]>
                Cases.bare_card))
    = inl (ValidationError es)
    ∧ (LKey "created-at" :: loc, kind) ∈ es.
Proof.
  apply (Card_new_timestamp_refused Fixtures.plain
           (<["created-at" := PDict {[ "date" := PStr "yesterday" ]}]>
              Cases.bare_card) "created-at").
  - left. reflexivity.
  - right. right.
    exists (PDict {[ "date" := PStr "yesterday" ]}),
      {[ "date" := PStr "yesterday" ]}, "date", (PStr "yesterday").
    repeat split; try (vm_compute; reflexivity). right. reflexivity.
Defined.

(** X17.  One document that does not validate fails the whole page: when the
    document at index [i] of [docs] is refused as a [Card], the page is not
    built, and every error of that document is reported under [docs], [i]. *)
Theorem PaginatedCards_new_bad_card V (kw : gmap string pyval) l i d ces :
  kw !! "docs" = Some (PList l) →
  l !! i = Some (PDict d) →
  Card.validate_model V d = inl ces →
  ∃ es, PaginatedCards.new V (PDict kw) = inl (ValidationError es)
        ∧ ∀ loc kind, (loc, kind) ∈ ces →
                      (LKey "docs" :: LIdx i :: loc, kind) ∈ es.
Proof.
  intros Hdocs Hi Hces.
  destruct (PaginatedCards.validate_model V kw) as [es|p] eqn:Hp.
  - exists es. split.
    { unfold PaginatedCards.new, kwargs_of, Pydantic.construct. by rewrite Hp. }
    intros loc kind Hin.
    assert (Pydantic.fails_with (LKey "docs" :: LIdx i :: loc, kind)
              (PaginatedCards.validate_model V kw)) as (es' & Hes' & Hin').
    { unfold PaginatedCards.validate_model. apply fails_with_vap_r.
      unfold Pydantic.required. rewrite Hdocs. apply fails_with_under.
      cbn [Pydantic.not_none Pydantic.list_of].
      apply (each_fails _ 0 l i (PDict d)); [done|].
      exists ces. split; [|done].
      unfold Pydantic.not_none, Card.validate. by rewrite dict_validator_dict. }
    congruence.
  - exfalso. unfold PaginatedCards.validate_model in Hp.
    apply vap_inr_inv in Hp as (g & docs & _ & Hd & _).
    unfold Pydantic.required in Hd. rewrite Hdocs in Hd.
    apply under_inr_inv in Hd. cbn [Pydantic.not_none Pydantic.list_of] in Hd.
    apply each_inv in Hd.
    destruct (Forall2_lookup_l _ _ _ _ _ Hd Hi) as (c & _ & Hc).
    unfold Pydantic.not_none, Card.validate in Hc.
    rewrite dict_validator_dict in Hc. congruence.
Qed.

Lemma PaginatedCards_new_bad_card_witness :
  ∃ es,
    PaginatedCards.new Fixtures.plain
      (Fixtures.page (PStr "bookmark1")
         [Fixtures.wire_card "card_1" "1";
          delete "id" (Fixtures.wire_card "card_2" "2")])
    = inl (ValidationError es)
    ∧ ∀ loc kind, (loc, kind) ∈ [([LKey "id"], Missing)] →
                  (LKey "docs" :: LIdx 1 :: loc, kind) ∈ es.
Proof.
  apply (PaginatedCards_new_bad_card Fixtures.plain _
           [PDict (Fixtures.wire_card "card_1" "1");
            PDict (delete "id" (Fixtures.wire_card "card_2" "2"))]
           1 (delete "id" (Fixtures.wire_card "card_2" "2"))
           [([LKey "id"], Missing)]).
  - vm_compute. reflexivity.
  - reflexivity.
  - vm_compute. reflexivity.
Defined.

(** X18.  A page that was built has one [Card] for every document of the
    wire array, in the same order, each the outcome of validating that
    document; and it has no bookmark when the wire key is absent or
    [null]. *)
Theorem PaginatedCards_new_inv V (kw : gmap string pyval) (p : PaginatedCards.t) :
  PaginatedCards.new V (PDict kw) = inr p →
  (∃ l, kw !! "docs" = Some (PList l)
        ∧ Forall2 (λ x c, x ≠ PNone ∧ Card.validate V x = inr c)
            l (PaginatedCards.docs p))
  ∧ (kw !! "bookmark" = None ∨ kw !! "bookmark" = Some PNone →
     PaginatedCards.bookmark p = None).
Proof.
  unfold PaginatedCards.new, kwargs_of, Pydantic.construct.
  destruct (PaginatedCards.validate_model V kw) as [es|p'] eqn:Hp; [done|].
  intros [= ->]. unfold PaginatedCards.validate_model in Hp.
  apply vap_inr_inv in Hp as (g & docs & Hp & Hd & ->).
  apply vap_inr_inv in Hp as (g' & b & Hp & Hb & ->).
  injection Hp as <-. cbn. split.
  - unfold Pydantic.required in Hd.
    destruct (kw !! "docs") as [v|]; [|done].
    apply under_inr_inv in Hd. destruct v; try done.
    exists l. split; [done|]. cbn [Pydantic.not_none Pydantic.list_of] in Hd.
    apply each_inv in Hd. eapply Forall2_impl; [exact Hd|].
    intros x c Hx. by destruct x.
  - unfold Pydantic.defaulted in Hb. intros [Hk | Hk]; rewrite Hk in Hb.
    + by injection Hb.
    + by injection Hb.
Qed.

Lemma PaginatedCards_new_inv_witness :
  let kw : gmap string pyval :=
    list_to_map [ ("bookmark", PNone);
                  ("docs", PList [PDict (Fixtures.wire_card "card_1" "1")]) ] in
  let p := {| PaginatedCards.bookmark := None;
              PaginatedCards.docs := [Fixtures.card "card_1" "1"] |} in
  (∃ l, kw !! "docs" = Some (PList l)
        ∧ Forall2 (λ x c, x ≠ PNone ∧ Card.validate Fixtures.plain x = inr c)
            l (PaginatedCards.docs p))
  ∧ (kw !! "bookmark" = None ∨ kw !! "bookmark" = Some PNone →
     PaginatedCards.bookmark p = None).
Proof.
  apply (PaginatedCards_new_inv Fixtures.plain).
  vm_compute. reflexivity.
Defined.

(** X19.  [CardData] survives the round trip through its own dict: calling
    the model on the keyword arguments that [.dict()] produced gives the
    model back. *)
Theorem CardData_dict_roundtrip V (c : CardData.t) :
  CardData.new V (list_to_map (CardData.dict c)) = inr c.
Proof. destruct c. apply CardData_new_create. Qed.

(** X20.  [Deck] has no alias table, so it reads nothing but its six own
    field names: a key spelled the way the service spells it ([parent-id],
    [archived?], [trashed?]), like any other unknown key, changes nothing in
    the outcome. *)
Theorem Deck_ignores_other_keys V int_validator (kw : gmap string pyval)
    (k : string) (v : pyval) :
  k ∉ Deck.names →
  Deck.new V int_validator (PDict (<[k := v]> kw))
  = Deck.new V int_validator (PDict kw).
Proof.
  intros Hk. unfold Deck.new, kwargs_of. f_equal.
  unfold Deck.validate_model, Pydantic.required, Pydantic.defaulted.
  rewrite !lookup_insert_ne; [done|..];
    intros ->; apply Hk; unfold Deck.names;
    repeat first [apply list_elem_of_here | apply list_elem_of_further].
Qed.

Lemma Deck_ignores_other_keys_witness :
  Cases.small_deck !! "parent-id" = None
  ∧ (<["parent-id" := PStr "Dm5vFlaa"]> Cases.small_deck) !! "parent-id"
    = Some (PStr "Dm5vFlaa")
  ∧ Deck.new Fixtures.plain Cases.only_int
      (PDict (<["parent-id" := PStr "Dm5vFlaa"]> Cases.small_deck))
    = Deck.new Fixtures.plain Cases.only_int (PDict Cases.small_deck).
Proof.
  split; [vm_compute; reflexivity|]. split; [vm_compute; reflexivity|].
  apply (Deck_ignores_other_keys Fixtures.plain Cases.only_int Cases.small_deck
           "parent-id" (PStr "Dm5vFlaa")).
  apply (bool_decide_unpack _). vm_compute. exact I.
Defined.

(** X21.  A deck that was built has no parent, is not archived and is not
    trashed whenever the key of that field, under the field's own name, is
    absent, whatever the object holds under the service's spelling of it. *)
Theorem Deck_new_defaults V int_validator (kw : gmap string pyval) (dk : Deck.t) :
  Deck.new V int_validator (PDict kw) = inr dk →
  (kw !! "parent_id" = None → Deck.parent_id dk = None)
  ∧ (kw !! "archived" = None → Deck.archived dk = false)
  ∧ (kw !! "trashed" = None → Deck.trashed dk = None).
Proof.
  unfold Deck.new, kwargs_of, Pydantic.construct.
  destruct (Deck.validate_model V int_validator kw) as [es|dk'] eqn:H; [done|].
  intros [= ->]. unfold Deck.validate_model in H.
  repeat match type of H with
    | Pydantic.vap _ _ = inr _ =>
        let g := fresh "g" in let a := fresh "a" in
        let Ha := fresh "Ha" in
        apply vap_inr_inv in H as (g & a & H & Ha & ->)
    end.
  injection H as <-. cbn.
  repeat split; intros Hk; by eapply defaulted_absent.
Qed.

Lemma Deck_new_defaults_witness :
  let kw := Cases.wire_deck in
  let dk := Cases.wire_deck_decoded in
  (kw !! "parent_id" = None → Deck.parent_id dk = None)
  ∧ (kw !! "archived" = None → Deck.archived dk = false)
  ∧ (kw !! "trashed" = None → Deck.trashed dk = None).
Proof.
  apply (Deck_new_defaults Fixtures.plain Cases.only_int Cases.wire_deck
           Cases.wire_deck_decoded).
  vm_compute. reflexivity.
Defined.

(** X22.  Every field of [Template] is required, [fields] included, which
    has no default here as it has in [Card]: an object that lacks one of the
    four keys is refused with [missing] at that key. *)
Theorem Template_new_required V (kw : gmap string pyval) (k : string) :
  k = "id" ∨ k = "name" ∨ k = "content" ∨ k = "fields" →
  kw !! k = None →
  ∃ es, Template.new V (PDict kw) = inl (ValidationError es)
        ∧ ([LKey k], Missing) ∈ es.
Proof.
  intros Hk Habsent. unfold Template.new, kwargs_of.
  apply construct_fails. unfold Template.validate_model.
  destruct Hk as [-> | [-> | [-> | ->]]];
    repeat first
      [ apply fails_with_vap_r; apply required_missing; exact Habsent
      | apply fails_with_vap_l ].
Qed.

Lemma Template_new_required_witness :
  ∃ es,
    Template.new Fixtures.plain
      (PDict (list_to_map [ ("id", PStr "YDELNZSu"); ("name", PStr "Basic");
                            ("content", PStr "# << Front >>") ]))
    = inl (ValidationError es)
    ∧ ([LKey "fields"], Missing) ∈ es.
Proof.
  apply (Template_new_required Fixtures.plain _ "fields").
  - right. right. right. reflexivity.
  - vm_compute. reflexivity.
Defined.

(** ** More on pagination *)

Section IterationFacts.
Context (V : Validators) (remote : service).
Import MochiClient.

(** The cards left in the current page are handed out one by one, in order,
    before anything else happens. *)
Lemma list_in_page fuel g cs b w :
  gi_frame g = ForLoop cs b →
  let rest := list_ V remote fuel (goto g (ForLoop [] b)) w in
  list_ V remote (length cs + fuel) g w = (cs ++ rest.1.1, rest.1.2, rest.2).
Proof.
  revert g. induction cs as [|c cs IH]; intros g Hg rest.
  - cbn [length Nat.add app]. subst rest.
    replace (goto g (ForLoop [] b)) with g; [by destruct (list_ _ _ _ _ _) as [[??]?]|].
    destruct g; cbn in *. by subst.
  - cbn [length Nat.add].
    rewrite (list_yield V remote _ g w c (goto g (ForLoop cs b)) w);
      [|by apply next_in_page].
    rewrite (IH (goto g (ForLoop cs b))); [|done]. reflexivity.
Qed.

Lemma next_raises g b w e w' :
  gi_frame g = LoopHead b ∨ gi_frame g = ForLoop [] b →
  _list_cards V remote (gi_self g) (gi_deck_id g) (gi_limit g) b w = (inl e, w') →
  next V remote g w = (Raise e, goto g Closed, w').
Proof.
  intros Hg He. rewrite (next_turn V remote g b w Hg).
  unfold loop_turn. by rewrite He.
Qed.

Lemma list_raise fuel g w e g' w' :
  next V remote g w = (Raise e, g', w') →
  list_ V remote (S fuel) g w = ([], Raised e, w').
Proof. intros Hn. cbn [list_]. by rewrite Hn. Qed.

(** The frame that [next] leaves behind after the end of the iteration. *)
Lemma next_ended_frame g w :
  match (next V remote g w).1.1 with
  | Yield _ => True
  | _ => gi_frame (next V remote g w).1.2 = Closed
  end.
Proof.
  unfold next. destruct (gi_frame g) as [b|[|c cs] b|] eqn:Hf; cbn; try done;
    unfold loop_turn;
    destruct (_list_cards _ _ _ _ _ _ _) as [[e|p] w']; cbn; try done;
    destruct (PaginatedCards.docs p); cbn; try done;
    by destruct (truthy_str _).
Qed.

Lemma next_length g w :
  (length (sent (next V remote g w).2) ≤ S (length (sent w)))%nat.
Proof.
  destruct (next_sent V remote g w) as [bs Hbs].
  unfold next in *. destruct (gi_frame g) as [b|[|c cs] b|];
    try (rewrite loop_turn_sent, length_app; cbn; lia); cbn; lia.
Qed.

(** A page that has cards and a bookmark: its cards come out in the order
    of the page, then the iteration goes on from the end of the [for] loop
    with the bookmark of the page. *)
Lemma list_page fuel g b w page w' :
  gi_frame g = LoopHead b ∨ gi_frame g = ForLoop [] b →
  _list_cards V remote (gi_self g) (gi_deck_id g) (gi_limit g) b w
    = (inr page, w') →
  PaginatedCards.docs page ≠ [] →
  truthy_str (PaginatedCards.bookmark page) = true →
  let rest := list_ V remote fuel
                (goto g (ForLoop [] (PaginatedCards.bookmark page))) w' in
  list_ V remote (length (PaginatedCards.docs page) + fuel) g w
  = (PaginatedCards.docs page ++ rest.1.1, rest.1.2, rest.2).
Proof.
  intros Hg Hp Hd Hb rest.
  destruct (PaginatedCards.docs page) as [|c cs] eqn:Hdocs; [done|].
  cbn [length Nat.add].
  rewrite (list_yield V remote _ g w c
             (goto g (ForLoop cs (PaginatedCards.bookmark page))) w');
    [|by eapply next_page].
  rewrite (list_in_page fuel (goto g (ForLoop cs (PaginatedCards.bookmark page)))
             cs (PaginatedCards.bookmark page) w'); [|done].
  reflexivity.
Qed.

Lemma list_length fuel g w :
  (length (sent (list_ V remote fuel g w).2) ≤ length (sent w) + fuel)%nat.
Proof.
  revert g w. induction fuel as [|fuel IH]; intros g w; [cbn; lia|].
  cbn [list_]. pose proof (next_length g w) as Hn.
  destruct (next V remote g w) as [[[c| |e] g'] w']; cbn in *; try lia.
  specialize (IH g' w').
  destruct (list_ V remote fuel g' w') as [[cards e] w'']; cbn in *. lia.
Qed.

End IterationFacts.

(** X23.  The cards of a page that has cards and a bookmark reach the
    consumer all of them, in the order of the page and before any card of a
    later page; nothing is reordered or removed, and the iteration resumes
    with the bookmark of that page. *)
Theorem list_cards_page_in_order V remote g b w page w' fuel :
  MochiClient.gi_frame g = MochiClient.LoopHead b
    ∨ MochiClient.gi_frame g = MochiClient.ForLoop [] b →
  MochiClient._list_cards V remote (MochiClient.gi_self g)
    (MochiClient.gi_deck_id g) (MochiClient.gi_limit g) b w = (inr page, w') →
  PaginatedCards.docs page ≠ [] →
  truthy_str (PaginatedCards.bookmark page) = true →
  let rest := MochiClient.list_ V remote fuel
                (MochiClient.goto g
                   (MochiClient.ForLoop [] (PaginatedCards.bookmark page))) w' in
  MochiClient.list_ V remote (length (PaginatedCards.docs page) + fuel) g w
  = (PaginatedCards.docs page ++ rest.1.1, rest.1.2, rest.2).
Proof. apply list_page. Qed.

Lemma list_cards_page_in_order_witness :
  let g := MochiClient.list_cards Fixtures.client None None None in
  let page := {| PaginatedCards.bookmark := Some "bookmark1";
                 PaginatedCards.docs := [ Fixtures.card "card_1" "1";
                                          Fixtures.card "card_2" "2" ] |} in
  let w' := (MochiClient._list_cards Fixtures.plain Fixtures.three_pages
               Fixtures.client None None None Fixtures.no_env).2 in
  let rest := MochiClient.list_ Fixtures.plain Fixtures.three_pages 3
                (MochiClient.goto g
                   (MochiClient.ForLoop [] (PaginatedCards.bookmark page))) w' in
  MochiClient.list_ Fixtures.plain Fixtures.three_pages
    (length (PaginatedCards.docs page) + 3) g Fixtures.no_env
  = (PaginatedCards.docs page ++ rest.1.1, rest.1.2, rest.2).
Proof.
  apply (list_cards_page_in_order Fixtures.plain Fixtures.three_pages
           (MochiClient.list_cards Fixtures.client None None None) None
           Fixtures.no_env).
  - left. reflexivity.
  - vm_compute. reflexivity.
  - discriminate.
  - reflexivity.
Defined.

(** X24.  When the request for the page after a full page fails, the
    consumer has received the cards of the full page, the iteration ends
    with the exception of the failed request, and no request follows. *)
Theorem list_cards_error_after_page V remote self deck_id limit start
    w w1 w2 page e (fuel : nat) :
  MochiClient._list_cards V remote self deck_id limit start w
    = (inr page, w1) →
  PaginatedCards.docs page ≠ [] →
  truthy_str (PaginatedCards.bookmark page) = true →
  MochiClient._list_cards V remote self deck_id limit
    (PaginatedCards.bookmark page) w1 = (inl e, w2) →
  (length (PaginatedCards.docs page) < fuel)%nat →
  MochiClient.list_ V remote fuel
    (MochiClient.list_cards self deck_id limit start) w
  = (PaginatedCards.docs page, MochiClient.Raised e, w2).
Proof.
  intros Hp Hd Hb He Hfuel.
  replace fuel with (length (PaginatedCards.docs page)
                     + S (fuel - S (length (PaginatedCards.docs page))))
    by lia.
  rewrite (list_page V remote _ _ start w page w1); [|by left|done..].
  erewrite list_raise; [|by eapply next_raises; [right|exact He]].
  cbn. by rewrite app_nil_r.
Qed.

Lemma list_cards_error_after_page_witness :
  MochiClient.list_ Fixtures.plain Cases.second_page_fails 3
    (MochiClient.list_cards Fixtures.client None None None) Fixtures.no_env
  = ([ Fixtures.card "card_1" "1"; Fixtures.card "card_2" "2" ],
     MochiClient.Raised (HTTPError 500),
     (MochiClient._list_cards Fixtures.plain Cases.second_page_fails
        Fixtures.client None None (Some "bookmark1")
        (MochiClient._list_cards Fixtures.plain Cases.second_page_fails
           Fixtures.client None None None Fixtures.no_env).2).2).
Proof.
  apply (list_cards_error_after_page Fixtures.plain Cases.second_page_fails
           Fixtures.client None None None Fixtures.no_env
           (MochiClient._list_cards Fixtures.plain Cases.second_page_fails
              Fixtures.client None None None Fixtures.no_env).2
           _
           {| PaginatedCards.bookmark := Some "bookmark1";
              PaginatedCards.docs := [ Fixtures.card "card_1" "1";
                                       Fixtures.card "card_2" "2" ] |}
           (HTTPError 500) 3).
  - vm_compute. reflexivity.
  - discriminate.
  - reflexivity.
  - vm_compute. reflexivity.
  - cbn. lia.
Defined.

(** X25.  The generator cannot be restarted: once [next] has ended the
    iteration, by [StopIteration] or by an exception, every later [next]
    answers [StopIteration] and sends nothing. *)
Theorem generator_stays_closed V remote g w s g' w' :
  MochiClient.next V remote g w = (s, g', w') →
  (∀ card, s ≠ MochiClient.Yield card) →
  ∀ w2, MochiClient.next V remote g' w2 = (MochiClient.StopIteration, g', w2).
Proof.
  intros Hn Hs w2. pose proof (next_ended_frame V remote g w) as Hf.
  rewrite Hn in Hf. cbn in Hf.
  unfold MochiClient.next. destruct s as [card| |e];
    [by destruct (Hs card)|by rewrite Hf..].
Qed.

Lemma generator_stays_closed_witness :
  MochiClient.next Fixtures.plain (Fixtures.always 404)
    (MochiClient.goto (MochiClient.list_cards Fixtures.client None None None)
       MochiClient.Closed) Fixtures.no_env
  = (MochiClient.StopIteration,
     MochiClient.goto (MochiClient.list_cards Fixtures.client None None None)
       MochiClient.Closed, Fixtures.no_env).
Proof.
  apply (generator_stays_closed Fixtures.plain (Fixtures.always 404)
           (MochiClient.list_cards Fixtures.client None None None)
           Fixtures.no_env (MochiClient.Raise (HTTPError 404)) _
           (MochiClient.next Fixtures.plain (Fixtures.always 404)
              (MochiClient.list_cards Fixtures.client None None None)
              Fixtures.no_env).2).
  - vm_compute. reflexivity.
  - discriminate.
Defined.

(** X26.  The iteration is lazy: a consumer that has called [next] [fuel]
    times has caused at most [fuel] requests. *)
Theorem list_cards_one_request_per_next V remote (fuel : nat) g w :
  (length (sent_since w (MochiClient.list_ V remote fuel g w).2) ≤ fuel)%nat.
Proof.
  unfold sent_since. rewrite length_drop.
  pose proof (list_length V remote fuel g w). lia.
Qed.

(** X27.  A page without cards ends the iteration normally even when it
    carries a bookmark: the bookmark is not followed. *)
Theorem list_cards_empty_page_ends V remote g b w page w' (fuel : nat) :
  MochiClient.gi_frame g = MochiClient.LoopHead b
    ∨ MochiClient.gi_frame g = MochiClient.ForLoop [] b →
  MochiClient._list_cards V remote (MochiClient.gi_self g)
    (MochiClient.gi_deck_id g) (MochiClient.gi_limit g) b w = (inr page, w') →
  PaginatedCards.docs page = [] →
  MochiClient.list_ V remote (S fuel) g w = ([], MochiClient.Exhausted, w').
Proof.
  intros Hg Hp Hd. eapply list_stop. by eapply next_empty_page.
Qed.

Lemma list_cards_empty_page_ends_witness :
  MochiClient.list_ Fixtures.plain
    (Cases.replies 200 (Some (Fixtures.page (PStr "bookmark9") []))) 4
    (MochiClient.list_cards Fixtures.client None None None) Fixtures.no_env
  = ([], MochiClient.Exhausted,
     (MochiClient._list_cards Fixtures.plain
        (Cases.replies 200 (Some (Fixtures.page (PStr "bookmark9") [])))
        Fixtures.client None None None Fixtures.no_env).2).
Proof.
  apply (list_cards_empty_page_ends Fixtures.plain
           (Cases.replies 200 (Some (Fixtures.page (PStr "bookmark9") [])))
           (MochiClient.list_cards Fixtures.client None None None) None
           Fixtures.no_env
           {| PaginatedCards.bookmark := Some "bookmark9";
              PaginatedCards.docs := [] |}).
  - left. reflexivity.
  - vm_compute. reflexivity.
  - reflexivity.
Defined.

(** X28.  An iteration that is at the head of its loop with bookmark [b]
    sends, as its next request, the page request for [b]: the first request
    of [list_cards] carries the bookmark the caller passed, and the request
    after a page carries the bookmark of that page. *)
Theorem list_cards_next_request V remote g b w (fuel : nat) :
  MochiClient.gi_frame g = MochiClient.LoopHead b
    ∨ MochiClient.gi_frame g = MochiClient.ForLoop [] b →
  ∃ later,
    sent_since w (MochiClient.list_ V remote (S fuel) g w).2
    = MochiClient.page_request (MochiClient.gi_self g)
        (MochiClient.gi_deck_id g) (MochiClient.gi_limit g) b :: later.
Proof.
  intros Hg. cbn [MochiClient.list_].
  pose proof (next_turn V remote g b w Hg) as Hn.
  pose proof (loop_turn_sent V remote g b w) as Hs. rewrite <- Hn in Hs.
  destruct (MochiClient.next V remote g w) as [[[c| |e] g'] w1]; cbn in Hs.
  - destruct (list_sent V remote fuel g' w1) as [bs Hbs].
    destruct (MochiClient.list_ V remote fuel g' w1) as [[cards e] w2].
    cbn in *. eexists. apply sent_since_app.
    by rewrite Hbs, Hs, <- app_assoc.
  - exists []. by apply sent_since_app.
  - exists []. by apply sent_since_app.
Qed.

Lemma list_cards_next_request_witness :
  ∃ later,
    sent_since Fixtures.no_env
      (MochiClient.list_ Fixtures.plain Fixtures.three_pages 1
         (MochiClient.list_cards Fixtures.client None None (Some "bookmark1"))
         Fixtures.no_env).2
    = MochiClient.page_request Fixtures.client None None (Some "bookmark1")
      :: later.
Proof.
  apply (list_cards_next_request Fixtures.plain Fixtures.three_pages
           (MochiClient.list_cards Fixtures.client None None (Some "bookmark1"))
           (Some "bookmark1") Fixtures.no_env 0).
  left. reflexivity.
Defined.

(** ** [update_card] and the required fields of [CardData] *)

(** X29.  [update_card] passes every argument on to [CardData], the ones
    left at [None] included, and [content], [deck_id] and [archived] are not
    [Optional] there: an update that leaves one of them out raises a
    [ValidationError] naming that field, and sends nothing. *)
Theorem update_card_partial_refused V remote self card_id content deck_id
    fields attachments archived pos w (k : string) :
  (k = "content" ∧ content = None) ∨ (k = "deck_id" ∧ deck_id = None)
    ∨ (k = "archived" ∧ archived = None) →
  ∃ es,
    MochiClient.update_card V remote self card_id content deck_id fields
      attachments archived pos w = (inl (ValidationError es), w)
    ∧ ([LKey k], NoneNotAllowed) ∈ es.
Proof.
  intros Hk.
  assert (Pydantic.fails_with ([LKey k], NoneNotAllowed)
    (CardData.validate_model V (list_to_map
      [ ("content", opt_val PStr content);
        ("deck_id", opt_val PStr deck_id);
        ("fields", opt_val PDict fields);
        ("attachments", opt_val PList attachments);
        ("archived", opt_val PBool archived); ("pos", opt_val PStr pos) ])))
    as (es & Hes & Hin).
  { unfold CardData.validate_model.
    destruct Hk as [[-> ->] | [[-> ->] | [-> ->]]].
    - do 7 apply fails_with_vap_l. apply fails_with_vap_r.
      apply required_none. by rewrite lookup_kwargs.
    - do 6 apply fails_with_vap_l. apply fails_with_vap_r.
      apply required_none. by rewrite lookup_kwargs.
    - do 2 apply fails_with_vap_l. apply fails_with_vap_r.
      apply defaulted_none. by rewrite lookup_kwargs. }
  exists es. split; [|done].
  unfold MochiClient.update_card. unfold mbind at 1.
  unfold M_bind, lift, CardData.new, Pydantic.construct. by rewrite Hes.
Qed.

Lemma update_card_partial_refused_witness :
  ∃ es,
    MochiClient.update_card Fixtures.plain Fixtures.echo Fixtures.client
      "card_1" (Some "New content") (Some "deck_123") None None None None
      Fixtures.no_env = (inl (ValidationError es), Fixtures.no_env)
    ∧ ([LKey "archived"], NoneNotAllowed) ∈ es.
Proof.
  apply (update_card_partial_refused Fixtures.plain Fixtures.echo
           Fixtures.client "card_1" (Some "New content") (Some "deck_123")
           None None None None Fixtures.no_env "archived").
  right. right. split; reflexivity.
Defined.
